(** * BIP39KeyManagementService: deterministic P-256 passkeys for Credo-TS

    A shallow embedding of
    [packages/core/src/modules/kms/bip39/BIP39KeyManagementService.ts]
    and the properties of its key router, identifier and public-key
    encoder.

    Conventions of the embedding.
    - A JavaScript string is a [string]; a [Uint8Array] is a [list byte].
    - The [counter] (a JavaScript [number]) is a [Z]. Among the safe
      integers, of magnitude at most [MAX_SAFE_INTEGER], every integer is a
      number and its rendering in a template literal is its plain decimal
      numeral, which is what [numberToString] computes. Past them not every
      integer is a number and from 1e21 on the rendering is in exponent
      notation: a statement that spells out the numeral of a counter carries
      [isSafeInteger] as a hypothesis.
    - A promise that resolves and a call that returns are both [Return]; a
      promise that rejects and a call that throws are both [Throw].
    - The wrapped key-management service is a record of state transformers
      over its own store; the service under study runs in a [World] that
      holds that store, the list of calls made on the wrapped service and the
      messages handed to the logger.
    - [@algorandfoundation/dp256] is an external library: its three entry
      points are the fields of a record the service is parameterised by, each
      a function of its arguments that returns or throws; constructing
      [new DeterministicP256()] does nothing else and does not fail.
    - [logger.debug] records its message and returns. *)

From Stdlib Require Import ZArith NArith List String Ascii Bool Lia.
From Stdlib Require Import Strings.Byte.
From Stdlib Require Import DecimalString DecimalZ.
Import ListNotations.

Local Open Scope string_scope.
Local Open Scope list_scope.

(** ** Bytes, strings and numbers as the source uses them *)

Definition bytes := list byte.

(** [new Uint8Array(n).fill(b)] *)
Definition Uint8Array_fill (n : nat) (b : byte) : bytes := repeat b n.

(** [a.slice(start, end)] for [0 <= start <= end]. *)
Definition slice (start stop : nat) (a : bytes) : bytes :=
  firstn (stop - start) (skipn start a).

(** [Number.MAX_SAFE_INTEGER], that is 2^53 - 1. *)
Definition MAX_SAFE_INTEGER : Z := 9007199254740991.

(** [Number.isSafeInteger(n)] for an integral [n]. *)
Definition isSafeInteger (n : Z) : bool :=
  (- MAX_SAFE_INTEGER <=? n)%Z && (n <=? MAX_SAFE_INTEGER)%Z.

(** The rendering of an integral number inside a template literal. It is
    the rendering of the code for the safe integers; see [isSafeInteger]. *)
Definition numberToString (n : Z) : string :=
  NilEmpty.string_of_int (Z.to_int n).

(** [s.replace(/from/g, to)] for a one-character pattern and replacement. *)
Fixpoint replaceAll (from to : ascii) (s : string) : string :=
  match s with
  | EmptyString => EmptyString
  | String c rest =>
      String (if Ascii.eqb c from then to else c) (replaceAll from to rest)
  end.

(** [s.replace(/c/g, '')] *)
Fixpoint removeAll (c : ascii) (s : string) : string :=
  match s with
  | EmptyString => EmptyString
  | String d rest =>
      if Ascii.eqb d c then removeAll c rest else String d (removeAll c rest)
  end.

(** [s.includes(c)] for a single character. *)
Fixpoint includes (c : ascii) (s : string) : bool :=
  match s with
  | EmptyString => false
  | String d rest => Ascii.eqb d c || includes c rest
  end.

(** ** Base64 *)

Module Base64.

Definition standard_alphabet : string :=
  "ABCDEFGHIJKLMNOPQRSTUVWXYZabcdefghijklmnopqrstuvwxyz0123456789+/".

Definition url_alphabet : string :=
  "ABCDEFGHIJKLMNOPQRSTUVWXYZabcdefghijklmnopqrstuvwxyz0123456789-_".

Definition pad : ascii := "="%char.

(** The character of a 6-bit value in an alphabet. *)
Definition digit (alphabet : string) (n : N) : ascii :=
  match String.get (N.to_nat (N.land n 63)) alphabet with
  | Some c => c
  | None => pad
  end.

(** The 24-bit group of up to three bytes, missing bytes being zero. *)
Definition group (a b c : byte) : N :=
  N.lor (N.shiftl (Byte.to_N a) 16)
        (N.lor (N.shiftl (Byte.to_N b) 8) (Byte.to_N c)).

(** The encoder shared by both alphabets; [padding] is what stands in for
    the sextets a short last group does not have. *)
Fixpoint encode_with (alphabet : string) (padding : string) (bs : bytes)
  : string :=
  match bs with
  | [] => ""
  | [a] =>
      let n := group a x00 x00 in
      String (digit alphabet (N.shiftr n 18))
        (String (digit alphabet (N.shiftr n 12)) (padding ++ padding))
  | [a; b] =>
      let n := group a b x00 in
      String (digit alphabet (N.shiftr n 18))
        (String (digit alphabet (N.shiftr n 12))
           (String (digit alphabet (N.shiftr n 6)) padding))
  | a :: b :: c :: rest =>
      let n := group a b c in
      String (digit alphabet (N.shiftr n 18))
        (String (digit alphabet (N.shiftr n 12))
           (String (digit alphabet (N.shiftr n 6))
              (String (digit alphabet n)
                 (encode_with alphabet padding rest))))
  end.

(** [Buffer.from(bs).toString('base64')]: the standard alphabet, padded
    with [=] to a multiple of four characters. *)
Definition Buffer_toString_base64 (bs : bytes) : string :=
  encode_with standard_alphabet (String pad "") bs.

(** Modelled from the spec: [base64ToBase64URL] of [utils/base64], a helper
    of the repository that lives outside this module. It is applied to the
    output of [Buffer]'s base64 and yields the coordinates of the public key
    record: it turns standard base64 text into base64url text by replacing
    [+] with [-], [/] with [_] and dropping the [=] padding. *)
Definition base64ToBase64URL (base64 : string) : string :=
  removeAll "="
    (replaceAll "/" "_" (replaceAll "+" "-" base64)).

(** The base64url encoding of a byte string, stated directly: URL-safe
    alphabet, no padding. This is the encoding the specification names;
    it is compared below with what the code computes. *)
Definition base64url_encode (bs : bytes) : string :=
  encode_with url_alphabet "" bs.

(** What the two replacements of [base64ToBase64URL] do to one character. *)
Definition url_char (c : ascii) : ascii :=
  let c1 := if Ascii.eqb c "+" then "-"%char else c in
  if Ascii.eqb c1 "/" then "_"%char else c1.

(** The check of one sextet value, as a boolean so that it can be run over
    all sixty-four of them. *)
Definition sextet_ok (i : nat) : bool :=
  let c := match String.get i standard_alphabet with
           | Some c => c | None => pad end in
  let u := match String.get i url_alphabet with
           | Some c => c | None => pad end in
  Ascii.eqb (url_char c) u && negb (Ascii.eqb u pad).

End Base64.

(** ** Outcomes of calls *)

(** What a [catch] clause can receive. [CredoError] extends [Error]. *)
#[warnings="-register-all"]
Inductive Thrown : Type :=
| JsError (message : string)
| JsNonError (value : string)
| CredoError (message : string) (cause : option Thrown).

(** [error instanceof Error ? error.message : 'Unknown error'] *)
Definition error_message_or_unknown (error : Thrown) : string :=
  match error with
  | JsError message => message
  | CredoError message _ => message
  | JsNonError _ => "Unknown error"
  end.

Inductive Outcome (A : Type) : Type :=
| Return (a : A)
| Throw (e : Thrown).
Arguments Return {A} a.
Arguments Throw {A} e.

(** ** The data of a key-creation request *)

Record KmsCreateKeyType : Type := {
  type_kty : string;
  type_crv : option string
}.

Record DeterministicP256Options : Type := {
  mnemonic : string;
  origin : string;
  userHandle : string;
  counter : option Z
}.

(** [counter = 0] in the destructuring of the options. *)
Definition counterOrDefault (p : DeterministicP256Options) : Z :=
  match counter p with
  | Some c => c
  | None => 0%Z
  end.

Record BIP39CreateKeyOptions : Type := {
  opt_keyId : option string;
  opt_type : KmsCreateKeyType;
  p256Options : option DeterministicP256Options
}.

Record KmsJwkPublic : Type := {
  jwk_kty : string;
  jwk_crv : option string;
  jwk_x : option string;
  jwk_y : option string;
  jwk_kid : option string
}.

Record KmsCreateKeyReturn : Type := {
  keyId : string;
  publicJwk : KmsJwkPublic
}.

(** The types of the host interface the service only passes along. *)
Class KmsTypes : Type := {
  AgentContext : Type;
  KmsOperation : Type;
  KmsImportKeyOptions : Type;
  KmsImportKeyReturn : Type;
  KmsDeleteKeyOptions : Type;
  KmsRandomBytesOptions : Type;
  KmsRandomBytesReturn : Type;
  KmsSignOptions : Type;
  KmsSignReturn : Type;
  KmsVerifyOptions : Type;
  KmsVerifyReturn : Type;
  KmsEncryptOptions : Type;
  KmsEncryptReturn : Type;
  KmsDecryptOptions : Type;
  KmsDecryptReturn : Type;
  (** the store of the wrapped key-management service *)
  KmsStore : Type
}.

(** ** The dp256 library *)

Record DeterministicP256 : Type := {
  genDerivedMainKeyWithBIP39 : string -> Outcome bytes;
  genDomainSpecificKeyPair : bytes -> string -> string -> Z -> Outcome bytes;
  getPurePKBytes : bytes -> Outcome bytes
}.

Section Service.

Context `{T : KmsTypes}.

(** A method of the wrapped service: it reads and updates its store. *)
Definition Method (A : Type) : Type := KmsStore -> Outcome A * KmsStore.

(** The [KeyManagementService] interface. *)
Record KeyManagementService : Type := {
  kms_backend : string;
  kms_supportsKeyType : AgentContext -> KmsCreateKeyType -> bool;
  kms_isOperationSupported : AgentContext -> KmsOperation -> bool;
  kms_createKey :
    AgentContext -> BIP39CreateKeyOptions -> Method KmsCreateKeyReturn;
  kms_getPublicKey : AgentContext -> string -> Method (option KmsJwkPublic);
  kms_importKey :
    AgentContext -> KmsImportKeyOptions -> Method KmsImportKeyReturn;
  kms_deleteKey : AgentContext -> KmsDeleteKeyOptions -> Method bool;
  kms_randomBytes :
    AgentContext -> KmsRandomBytesOptions -> Method KmsRandomBytesReturn;
  kms_sign : AgentContext -> KmsSignOptions -> Method KmsSignReturn;
  kms_verify : AgentContext -> KmsVerifyOptions -> Method KmsVerifyReturn;
  kms_encrypt : AgentContext -> KmsEncryptOptions -> Method KmsEncryptReturn;
  kms_decrypt : AgentContext -> KmsDecryptOptions -> Method KmsDecryptReturn
}.

(** A call made on the wrapped service, with the arguments it was given. *)
Inductive KmsCall : Type :=
| CallCreateKey (agentContext : AgentContext) (options : BIP39CreateKeyOptions)
| CallGetPublicKey (agentContext : AgentContext) (keyId : string)
| CallImportKey (agentContext : AgentContext) (options : KmsImportKeyOptions)
| CallDeleteKey (agentContext : AgentContext) (options : KmsDeleteKeyOptions)
| CallRandomBytes (agentContext : AgentContext) (options : KmsRandomBytesOptions)
| CallSign (agentContext : AgentContext) (options : KmsSignOptions)
| CallVerify (agentContext : AgentContext) (options : KmsVerifyOptions)
| CallEncrypt (agentContext : AgentContext) (options : KmsEncryptOptions)
| CallDecrypt (agentContext : AgentContext) (options : KmsDecryptOptions).

(** ** The world the service runs in *)

Record World : Type := {
  kmsStore : KmsStore;
  kmsCalls : list KmsCall;
  debugLog : list (AgentContext * string)
}.

Definition M (A : Type) : Type := World -> Outcome A * World.

Definition ret {A} (a : A) : M A := fun w => (Return a, w).

Definition throw {A} (e : Thrown) : M A := fun w => (Throw e, w).

Definition bind {A B} (m : M A) (k : A -> M B) : M B :=
  fun w =>
    match m w with
    | (Return a, w') => k a w'
    | (Throw e, w') => (Throw e, w')
    end.

(** [try { body } catch (error) { handler }] *)
Definition try_catch {A} (body : M A) (handler : Thrown -> M A) : M A :=
  fun w =>
    match body w with
    | (Return a, w') => (Return a, w')
    | (Throw error, w') => handler error w'
    end.

(** The outcome of a library call, which touches nothing of the world. *)
Definition await {A} (o : Outcome A) : M A := fun w => (o, w).

(** A call of a method of the wrapped service: the call is recorded and
    the method runs on the service's store. *)
Definition invoke {A} (call : KmsCall) (method : Method A) : M A :=
  fun w =>
    let (r, store') := method (kmsStore w) in
    (r, {| kmsStore := store';
           kmsCalls := kmsCalls w ++ [call];
           debugLog := debugLog w |}).

(** [agentContext.config.logger.debug(message)] *)
Definition logger_debug (agentContext : AgentContext) (message : string)
  : M unit :=
  fun w =>
    (Return tt, {| kmsStore := kmsStore w;
                   kmsCalls := kmsCalls w;
                   debugLog := debugLog w ++ [(agentContext, message)] |}).

End Service.

Declare Scope kms_scope.
Delimit Scope kms_scope with kms.
Notation "x <- m ;; k" := (bind m (fun x => k))
  (at level 100, m at next level, right associativity) : kms_scope.
Notation "m ;;; k" := (bind m (fun _ => k))
  (at level 100, right associativity) : kms_scope.

(** ** The service *)

Section BIP39.

Context `{T : KmsTypes}.
Variable dp256 : DeterministicP256.

Record BIP39KeyManagementService : Type := {
  backend : string;
  wrappedKms : KeyManagementService
}.

(** [new BIP39KeyManagementService(wrappedKms)] *)
Definition new_BIP39KeyManagementService (wrappedKms : KeyManagementService)
  : BIP39KeyManagementService :=
  {| backend := "BIP39P256"; wrappedKms := wrappedKms |}.

(** Both capability queries are declared without parameters: whatever the
    caller passes is dropped. *)
Definition supportsKeyType (this : BIP39KeyManagementService)
  (agentContext : AgentContext) (type : KmsCreateKeyType) : bool := true.

Definition isOperationSupported (this : BIP39KeyManagementService)
  (agentContext : AgentContext) (operation : KmsOperation) : bool := true.

(** [`p256-${origin}-${userHandle}-${counter}`] *)
Definition keyIdOf (origin userHandle : string) (counter : Z) : string :=
  "p256-" ++ origin ++ "-" ++ userHandle ++ "-" ++ numberToString counter.

Definition missing_p256Options : Thrown :=
  CredoError "p256Options required for deterministic P-256 key generation"
    None.

Definition createDeterministicP256Key (this : BIP39KeyManagementService)
  (agentContext : AgentContext) (options : BIP39CreateKeyOptions)
  : M KmsCreateKeyReturn :=
  match p256Options options with
  | None => throw missing_p256Options
  | Some p =>
      let mnemonic := mnemonic p in
      let origin := origin p in
      let userHandle := userHandle p in
      let counter := counterOrDefault p in
      try_catch
        (mainKey <- await (genDerivedMainKeyWithBIP39 dp256 mnemonic) ;;
         privateKey <-
           await (genDomainSpecificKeyPair dp256 mainKey origin userHandle
                    counter) ;;
         publicKeyBytes <- await (getPurePKBytes dp256 privateKey) ;;
         let keyId := keyIdOf origin userHandle counter in
         let publicJwk :=
           {| jwk_kty := "EC";
              jwk_crv := Some "P-256";
              jwk_x :=
                Some (Base64.base64ToBase64URL
                        (Base64.Buffer_toString_base64
                           (slice 0 32 publicKeyBytes)));
              jwk_y :=
                Some (Base64.base64ToBase64URL
                        (Base64.Buffer_toString_base64
                           (slice 32 64 publicKeyBytes)));
              jwk_kid := Some keyId |} in
         logger_debug agentContext
           ("Generated deterministic P-256 passkey for origin: " ++ origin
              ++ ", user: " ++ userHandle) ;;;
         ret {| keyId := keyId; publicJwk := publicJwk |})%kms
        (fun error =>
           throw
             (CredoError
                ("Failed to generate deterministic P-256 passkey: "
                   ++ error_message_or_unknown error)
                (Some error)))
  end.

(** [options.type.kty === 'EC' && options.type.crv === 'P-256'] *)
Definition isP256 (type : KmsCreateKeyType) : bool :=
  String.eqb (type_kty type) "EC"
  && match type_crv type with
     | Some crv => String.eqb crv "P-256"
     | None => false
     end.

Definition createKey (this : BIP39KeyManagementService)
  (agentContext : AgentContext) (options : BIP39CreateKeyOptions)
  : M KmsCreateKeyReturn :=
  if isP256 (opt_type options) then
    match p256Options options with
    | None => throw missing_p256Options
    | Some _ => createDeterministicP256Key this agentContext options
    end
  else
    invoke (CallCreateKey agentContext options)
      (kms_createKey (wrappedKms this) agentContext options).

Definition getPublicKey (this : BIP39KeyManagementService)
  (agentContext : AgentContext) (keyId : string)
  : M (option KmsJwkPublic) :=
  invoke (CallGetPublicKey agentContext keyId)
    (kms_getPublicKey (wrappedKms this) agentContext keyId).

Definition importKey (this : BIP39KeyManagementService)
  (agentContext : AgentContext) (options : KmsImportKeyOptions)
  : M KmsImportKeyReturn :=
  invoke (CallImportKey agentContext options)
    (kms_importKey (wrappedKms this) agentContext options).

Definition deleteKey (this : BIP39KeyManagementService)
  (agentContext : AgentContext) (options : KmsDeleteKeyOptions) : M bool :=
  invoke (CallDeleteKey agentContext options)
    (kms_deleteKey (wrappedKms this) agentContext options).

Definition randomBytes (this : BIP39KeyManagementService)
  (agentContext : AgentContext) (options : KmsRandomBytesOptions)
  : M KmsRandomBytesReturn :=
  invoke (CallRandomBytes agentContext options)
    (kms_randomBytes (wrappedKms this) agentContext options).

Definition sign (this : BIP39KeyManagementService)
  (agentContext : AgentContext) (options : KmsSignOptions)
  : M KmsSignReturn :=
  invoke (CallSign agentContext options)
    (kms_sign (wrappedKms this) agentContext options).

Definition verify (this : BIP39KeyManagementService)
  (agentContext : AgentContext) (options : KmsVerifyOptions)
  : M KmsVerifyReturn :=
  invoke (CallVerify agentContext options)
    (kms_verify (wrappedKms this) agentContext options).

Definition encrypt (this : BIP39KeyManagementService)
  (agentContext : AgentContext) (options : KmsEncryptOptions)
  : M KmsEncryptReturn :=
  invoke (CallEncrypt agentContext options)
    (kms_encrypt (wrappedKms this) agentContext options).

Definition decrypt (this : BIP39KeyManagementService)
  (agentContext : AgentContext) (options : KmsDecryptOptions)
  : M KmsDecryptReturn :=
  invoke (CallDecrypt agentContext options)
    (kms_decrypt (wrappedKms this) agentContext options).

End BIP39.

(** ** Reference notions used to state the properties *)

Section Reference.

Context `{T : KmsTypes}.

(** The three steps of the derivation, in the order the service runs them;
    the first failure is the failure of the whole. *)
Definition derivedPublicKeyBytes (dp256 : DeterministicP256)
  (mnemonic origin userHandle : string) (counter : Z) : Outcome bytes :=
  match genDerivedMainKeyWithBIP39 dp256 mnemonic with
  | Throw e => Throw e
  | Return mainKey =>
      match genDomainSpecificKeyPair dp256 mainKey origin userHandle counter
      with
      | Throw e => Throw e
      | Return privateKey => getPurePKBytes dp256 privateKey
      end
  end.

(** The public key record of the specification: the identifier
    [p256-<origin>-<userHandle>-<counter>] and the two halves of the public
    key bytes in base64url. *)
Definition publicKeyRecord (origin userHandle : string) (counter : Z)
  (publicKeyBytes : bytes) : KmsCreateKeyReturn :=
  let id :=
    ("p256-" ++ origin ++ "-" ++ userHandle ++ "-" ++ numberToString counter)%string in
  {| keyId := id;
     publicJwk :=
       {| jwk_kty := "EC";
          jwk_crv := Some "P-256";
          jwk_x := Some (Base64.base64url_encode (firstn 32 publicKeyBytes));
          jwk_y :=
            Some (Base64.base64url_encode
                    (firstn 32 (skipn 32 publicKeyBytes)));
          jwk_kid := Some id |} |}.

(** The error a failed derivation is turned into. *)
Definition derivationFailure (error : Thrown) : Thrown :=
  CredoError
    ("Failed to generate deterministic P-256 passkey: "
       ++ error_message_or_unknown error)
    (Some error).

(** The world after one more debug message. *)
Definition logged (agentContext : AgentContext) (message : string)
  (w : World) : World :=
  {| kmsStore := kmsStore w;
     kmsCalls := kmsCalls w;
     debugLog := debugLog w ++ [(agentContext, message)] |}.

(** An operation of the service passes through to a method of the wrapped
    service: same outcome, the store as the method leaves it, exactly one
    call recorded, with the arguments given, and nothing logged. *)
Definition PassesThrough {A : Type} (operation : M A) (call : KmsCall)
  (method : Method A) : Prop :=
  forall w : World,
    fst (operation w) = fst (method (kmsStore w))
    /\ kmsStore (snd (operation w)) = snd (method (kmsStore w))
    /\ kmsCalls (snd (operation w)) = kmsCalls w ++ [call]
    /\ debugLog (snd (operation w)) = debugLog w.

(** No call reaches the wrapped service and its store stays as it was. *)
Definition BackendUntouched (w w' : World) : Prop :=
  kmsStore w' = kmsStore w /\ kmsCalls w' = kmsCalls w.

End Reference.

(** ** The fixtures of the unit tests

    [BIP39KeyManagementService.focused.test.ts] replaces the dp256 library
    and the wrapped service by constant functions; they serve here as
    concrete instances. *)

Module Fixtures.

(** The mocked services keep no store and take opaque options. *)
#[export] Instance mockTypes : KmsTypes := {|
  AgentContext := unit;
  KmsOperation := string;
  KmsImportKeyOptions := unit;
  KmsImportKeyReturn := string;
  KmsDeleteKeyOptions := string;
  KmsRandomBytesOptions := nat;
  KmsRandomBytesReturn := bytes;
  KmsSignOptions := bytes;
  KmsSignReturn := bytes;
  KmsVerifyOptions := bytes;
  KmsVerifyReturn := bool;
  KmsEncryptOptions := bytes;
  KmsEncryptReturn := bytes;
  KmsDecryptOptions := bytes;
  KmsDecryptReturn := bytes;
  KmsStore := unit
|}.

Definition mockDp256 : DeterministicP256 := {|
  genDerivedMainKeyWithBIP39 := fun _ => Return (Uint8Array_fill 32 x01);
  genDomainSpecificKeyPair := fun _ _ _ _ => Return (Uint8Array_fill 32 x02);
  getPurePKBytes := fun _ => Return (Uint8Array_fill 64 x03)
|}.

Definition mockKeyReturn : KmsCreateKeyReturn := {|
  keyId := "mock-key-id";
  publicJwk := {| jwk_kty := "OKP";
                  jwk_crv := Some "Ed25519";
                  jwk_x := Some "mock-x-value";
                  jwk_y := None;
                  jwk_kid := Some "mock-key-id" |}
|}.

Definition mockWrappedKms : KeyManagementService := {|
  kms_backend := "mock-kms";
  kms_supportsKeyType := fun _ _ => true;
  kms_isOperationSupported := fun _ _ => true;
  kms_createKey := fun _ _ s => (Return mockKeyReturn, s);
  kms_getPublicKey := fun _ _ s =>
    (Return (Some {| jwk_kty := "OKP";
                     jwk_crv := Some "Ed25519";
                     jwk_x := Some "mock-x-value";
                     jwk_y := None;
                     jwk_kid := None |}), s);
  kms_importKey := fun _ _ s => (Return "mock-imported-key", s);
  kms_deleteKey := fun _ _ s => (Return false, s);
  kms_randomBytes := fun _ _ s => (Return (Uint8Array_fill 32 x00), s);
  kms_sign := fun _ _ s => (Return (Uint8Array_fill 64 x00), s);
  kms_verify := fun _ _ s => (Return true, s);
  kms_encrypt := fun _ _ s => (Return (Uint8Array_fill 64 x00), s);
  kms_decrypt := fun _ _ s => (Return (Uint8Array_fill 32 x00), s)
|}.

Definition mockAgentContext : AgentContext := tt.

Definition bip39Kms : BIP39KeyManagementService :=
  new_BIP39KeyManagementService mockWrappedKms.

Definition TEST_MNEMONIC : string :=
  "abandon abandon abandon abandon abandon abandon abandon abandon abandon abandon abandon about".
Definition TEST_ORIGIN : string := "https://example.com".
Definition TEST_USER_HANDLE : string := "user123".

Definition P256 : KmsCreateKeyType :=
  {| type_kty := "EC"; type_crv := Some "P-256" |}.

Definition Ed25519 : KmsCreateKeyType :=
  {| type_kty := "OKP"; type_crv := Some "Ed25519" |}.

(** A request for a P-256 passkey in the test's context. *)
Definition passkeyRequest (counter : option Z) : BIP39CreateKeyOptions := {|
  opt_keyId := None;
  opt_type := P256;
  p256Options := Some {| mnemonic := TEST_MNEMONIC;
                         origin := TEST_ORIGIN;
                         userHandle := TEST_USER_HANDLE;
                         counter := counter |}
|}.

(** A request that names a type and nothing else. *)
Definition plainRequest (type : KmsCreateKeyType) : BIP39CreateKeyOptions :=
  {| opt_keyId := None; opt_type := type; p256Options := None |}.

Definition emptyWorld : World :=
  {| kmsStore := tt; kmsCalls := []; debugLog := [] |}.

End Fixtures.

(** ** Reading base64url back

    A decoder for unpadded base64url. The service has none; it serves to
    show that the coordinates of a public key record lose nothing of the
    bytes they encode. *)

Module Base64Decode.

(** The position of a character in an alphabet, counted from [i]. *)
Fixpoint index_from (c : ascii) (alphabet : string) (i : N) : N :=
  match alphabet with
  | EmptyString => 0%N
  | String d rest =>
      if Ascii.eqb d c then i else index_from c rest (N.succ i)
  end.

Definition sextet_of (c : ascii) : N := index_from c Base64.url_alphabet 0.

(** The 24-bit group of four sextets. *)
Definition regroup (s1 s2 s3 s4 : N) : N :=
  N.lor (N.shiftl s1 18)
        (N.lor (N.shiftl s2 12) (N.lor (N.shiftl s3 6) s4)).

(** The low eight bits of a number, as a byte. *)
Definition low_byte (n : N) : byte :=
  match Byte.of_N (N.land n 255) with
  | Some b => b
  | None => x00
  end.

Fixpoint base64url_decode (s : string) : bytes :=
  match s with
  | String c1 (String c2 (String c3 (String c4 rest))) =>
      let n := regroup (sextet_of c1) (sextet_of c2) (sextet_of c3)
                 (sextet_of c4) in
      low_byte (N.shiftr n 16) :: low_byte (N.shiftr n 8) :: low_byte n
        :: base64url_decode rest
  | String c1 (String c2 (String c3 EmptyString)) =>
      let n := regroup (sextet_of c1) (sextet_of c2) (sextet_of c3) 0 in
      [low_byte (N.shiftr n 16); low_byte (N.shiftr n 8)]
  | String c1 (String c2 EmptyString) =>
      let n := regroup (sextet_of c1) (sextet_of c2) 0 0 in
      [low_byte (N.shiftr n 16)]
  | _ => []
  end.

End Base64Decode.

(** ** Clients of the service

    A client issues requests one after the other, each with the arguments
    of the operation it names, and keeps every outcome, also the failures.
    The same requests can be put to the wrapped service directly. *)

Section Clients.

Context `{T : KmsTypes}.
Variable dp256 : DeterministicP256.

(** What an operation answers, tagged by the operation. *)
Inductive KmsResult : Type :=
| CreateKeyResult (r : KmsCreateKeyReturn)
| GetPublicKeyResult (r : option KmsJwkPublic)
| ImportKeyResult (r : KmsImportKeyReturn)
| DeleteKeyResult (r : bool)
| RandomBytesResult (r : KmsRandomBytesReturn)
| SignResult (r : KmsSignReturn)
| VerifyResult (r : KmsVerifyReturn)
| EncryptResult (r : KmsEncryptReturn)
| DecryptResult (r : KmsDecryptReturn).

Definition tagged {A S : Type} (tag : A -> KmsResult)
  (r : Outcome A * S) : Outcome KmsResult * S :=
  match r with
  | (Return a, s) => (Return (tag a), s)
  | (Throw e, s) => (Throw e, s)
  end.

(** One request put to the service. *)
Definition perform (this : BIP39KeyManagementService) (request : KmsCall)
  : M KmsResult :=
  fun w =>
    match request with
    | CallCreateKey agentContext options =>
        tagged CreateKeyResult (createKey dp256 this agentContext options w)
    | CallGetPublicKey agentContext keyId =>
        tagged GetPublicKeyResult (getPublicKey this agentContext keyId w)
    | CallImportKey agentContext options =>
        tagged ImportKeyResult (importKey this agentContext options w)
    | CallDeleteKey agentContext options =>
        tagged DeleteKeyResult (deleteKey this agentContext options w)
    | CallRandomBytes agentContext options =>
        tagged RandomBytesResult (randomBytes this agentContext options w)
    | CallSign agentContext options =>
        tagged SignResult (sign this agentContext options w)
    | CallVerify agentContext options =>
        tagged VerifyResult (verify this agentContext options w)
    | CallEncrypt agentContext options =>
        tagged EncryptResult (encrypt this agentContext options w)
    | CallDecrypt agentContext options =>
        tagged DecryptResult (decrypt this agentContext options w)
    end.

(** The same request put to a key-management service directly. *)
Definition performDirect (kms : KeyManagementService) (request : KmsCall)
  : Method KmsResult :=
  fun s =>
    match request with
    | CallCreateKey agentContext options =>
        tagged CreateKeyResult (kms_createKey kms agentContext options s)
    | CallGetPublicKey agentContext keyId =>
        tagged GetPublicKeyResult (kms_getPublicKey kms agentContext keyId s)
    | CallImportKey agentContext options =>
        tagged ImportKeyResult (kms_importKey kms agentContext options s)
    | CallDeleteKey agentContext options =>
        tagged DeleteKeyResult (kms_deleteKey kms agentContext options s)
    | CallRandomBytes agentContext options =>
        tagged RandomBytesResult (kms_randomBytes kms agentContext options s)
    | CallSign agentContext options =>
        tagged SignResult (kms_sign kms agentContext options s)
    | CallVerify agentContext options =>
        tagged VerifyResult (kms_verify kms agentContext options s)
    | CallEncrypt agentContext options =>
        tagged EncryptResult (kms_encrypt kms agentContext options s)
    | CallDecrypt agentContext options =>
        tagged DecryptResult (kms_decrypt kms agentContext options s)
    end.

(** A run of requests, each started where the one before it ended. *)
Fixpoint serve (this : BIP39KeyManagementService) (requests : list KmsCall)
  (w : World) : list (Outcome KmsResult) * World :=
  match requests with
  | [] => ([], w)
  | request :: rest =>
      let (r, w1) := perform this request w in
      let (rs, w2) := serve this rest w1 in
      (r :: rs, w2)
  end.

Fixpoint serveDirect (kms : KeyManagementService) (requests : list KmsCall)
  (s : KmsStore) : list (Outcome KmsResult) * KmsStore :=
  match requests with
  | [] => ([], s)
  | request :: rest =>
      let (r, s1) := performDirect kms request s in
      let (rs, s2) := serveDirect kms rest s1 in
      (r :: rs, s2)
  end.

(** The requests other than the creation of a P-256 key. *)
Definition reachesBackend (request : KmsCall) : bool :=
  match request with
  | CallCreateKey _ options => negb (isP256 (opt_type options))
  | _ => true
  end.

End Clients.

(** ** Derivation libraries that misbehave

    Instances of the dp256 interface for the edge cases the service can
    meet: a mnemonic the library refuses, and public keys that are not 64
    bytes long. *)

Module Faults.

Definition invalidMnemonicDp256 : DeterministicP256 := {|
  genDerivedMainKeyWithBIP39 := fun _ => Throw (JsError "Invalid mnemonic");
  genDomainSpecificKeyPair := fun _ _ _ _ => Return (Uint8Array_fill 32 x02);
  getPurePKBytes := fun _ => Return (Uint8Array_fill 64 x03)
|}.

(** A library that hands out a 32-byte public key. *)
Definition shortKeyDp256 : DeterministicP256 := {|
  genDerivedMainKeyWithBIP39 := fun _ => Return (Uint8Array_fill 32 x01);
  genDomainSpecificKeyPair := fun _ _ _ _ => Return (Uint8Array_fill 32 x02);
  getPurePKBytes := fun _ => Return (Uint8Array_fill 32 x03)
|}.

(** A library that hands out 65 bytes. *)
Definition longKeyDp256 : DeterministicP256 := {|
  genDerivedMainKeyWithBIP39 := fun _ => Return (Uint8Array_fill 32 x01);
  genDomainSpecificKeyPair := fun _ _ _ _ => Return (Uint8Array_fill 32 x02);
  getPurePKBytes := fun _ => Return (Uint8Array_fill 64 x03 ++ [x04])
|}.

End Faults.

(** * Properties *)

(** ** Strings *)

Section Strings.

Lemma append_assoc (a b c : string) :
  ((a ++ b) ++ c = a ++ (b ++ c))%string.
Proof.
  induction a as [|x a IH]; simpl; [reflexivity | now rewrite IH].
Qed.

Lemma append_cancel_l (p a b : string) :
  (p ++ a = p ++ b)%string -> a = b.
Proof.
  induction p as [|x p IH]; simpl; intros H; [exact H|].
  injection H as H. now apply IH.
Qed.

Lemma includes_append (c : ascii) (a b : string) :
  includes c (a ++ b) = includes c a || includes c b.
Proof.
  induction a as [|x a IH]; simpl; [reflexivity|].
  now rewrite IH, orb_assoc.
Qed.

(** Cutting at the last occurrence of a separator: when neither tail holds
    the separator, both sides of it are determined by the whole. *)
Lemma cut_at_last (c : ascii) (s1 s2 t1 t2 : string) :
  includes c t1 = false -> includes c t2 = false ->
  (s1 ++ String c t1 = s2 ++ String c t2)%string ->
  s1 = s2 /\ t1 = t2.
Proof.
  intros H1 H2. revert s2.
  induction s1 as [|x s1 IH]; intros [|y s2]; simpl; intros E.
  - injection E as E. now split.
  - injection E as Ec Et. subst y. rewrite Et in H1.
    rewrite includes_append in H1. simpl in H1.
    rewrite Ascii.eqb_refl, orb_true_r in H1. discriminate.
  - injection E as Ec Et. subst x. rewrite <- Et in H2.
    rewrite includes_append in H2. simpl in H2.
    rewrite Ascii.eqb_refl, orb_true_r in H2. discriminate.
  - injection E as Ec Et. subst y.
    destruct (IH _ Et) as [-> ->]. now split.
Qed.

(** Cutting at the first occurrence of a separator. *)
Lemma cut_at_first (c : ascii) (s1 s2 t1 t2 : string) :
  includes c s1 = false -> includes c s2 = false ->
  (s1 ++ String c t1 = s2 ++ String c t2)%string ->
  s1 = s2 /\ t1 = t2.
Proof.
  revert s2.
  induction s1 as [|x s1 IH]; intros [|y s2]; simpl; intros H1 H2 E.
  - injection E as E. now split.
  - injection E as Ec Et. subst y.
    rewrite Ascii.eqb_refl in H2. discriminate.
  - injection E as Ec Et. subst x.
    rewrite Ascii.eqb_refl in H1. discriminate.
  - injection E as Ec Et. subst y.
    apply orb_false_iff in H1 as [_ H1]. apply orb_false_iff in H2 as [_ H2].
    destruct (IH _ H1 H2 Et) as [-> ->]. now split.
Qed.

End Strings.

(** ** Numbers in template literals *)

Section Numbers.

Lemma numberToString_inj (m n : Z) :
  numberToString m = numberToString n -> m = n.
Proof.
  unfold numberToString. intros E.
  apply (f_equal NilEmpty.int_of_string) in E.
  rewrite !NilEmpty.isi in E. injection E as E.
  apply (f_equal Z.of_int) in E.
  now rewrite !DecimalZ.of_to in E.
Qed.

Lemma string_of_uint_no_minus (d : Decimal.uint) :
  includes "-" (NilEmpty.string_of_uint d) = false.
Proof.
  induction d; simpl; auto.
Qed.

Lemma numberToString_nonneg_no_minus (n : Z) :
  (0 <= n)%Z -> includes "-" (numberToString n) = false.
Proof.
  unfold numberToString. destruct n as [|p|p]; intros H; simpl.
  - reflexivity.
  - apply string_of_uint_no_minus.
  - lia.
Qed.

End Numbers.

(** ** Base64: what the code computes is base64url *)

Module Base64Facts.
Import Base64.

Lemma base64ToBase64URL_String (c : ascii) (s : string) :
  base64ToBase64URL (String c s) =
  if Ascii.eqb (url_char c) pad then base64ToBase64URL s
  else String (url_char c) (base64ToBase64URL s).
Proof. reflexivity. Qed.

Lemma base64ToBase64URL_empty : base64ToBase64URL "" = "".
Proof. reflexivity. Qed.

Lemma all_sextets_ok : forallb sextet_ok (seq 0 64) = true.
Proof. vm_compute. reflexivity. Qed.

Lemma digit_url (n : N) :
  url_char (digit standard_alphabet n) = digit url_alphabet n
  /\ Ascii.eqb (digit url_alphabet n) pad = false.
Proof.
  unfold digit.
  assert (Hlt : (N.to_nat (N.land n 63) < 64)%nat).
  { assert (N.land n 63 < 64)%N.
    { change 63%N with (N.ones 6). rewrite N.land_ones.
      apply N.mod_lt. discriminate. }
    lia. }
  pose proof all_sextets_ok as Hall.
  rewrite forallb_forall in Hall.
  specialize (Hall (N.to_nat (N.land n 63))).
  assert (Hin : In (N.to_nat (N.land n 63)) (seq 0 64)).
  { apply in_seq. lia. }
  specialize (Hall Hin). unfold sextet_ok in Hall.
  apply andb_true_iff in Hall as [Hc Hp].
  apply Ascii.eqb_eq in Hc. apply negb_true_iff in Hp.
  now split.
Qed.

Lemma base64ToBase64URL_digit (n : N) (s : string) :
  base64ToBase64URL (String (digit standard_alphabet n) s) =
  String (digit url_alphabet n) (base64ToBase64URL s).
Proof.
  rewrite base64ToBase64URL_String.
  destruct (digit_url n) as [-> ->]. reflexivity.
Qed.

(** Induction over a byte string three bytes at a time. *)
Lemma bytes_ind3 (P : bytes -> Prop) :
  P [] -> (forall a, P [a]) -> (forall a b, P [a; b]) ->
  (forall a b c rest, P rest -> P (a :: b :: c :: rest)) ->
  forall bs, P bs.
Proof.
  intros H0 H1 H2 H3 bs.
  assert (H : P bs /\ (forall a, P (a :: bs)) /\ (forall a b, P (a :: b :: bs))).
  { induction bs as [|x bs (IH0 & IH1 & IH2)].
    - repeat split; auto.
    - repeat split; auto. }
  apply H.
Qed.

(** The code's two-step encoding agrees with base64url on every input. *)
Lemma base64ToBase64URL_of_base64 (bs : bytes) :
  base64ToBase64URL (Buffer_toString_base64 bs) = base64url_encode bs.
Proof.
  unfold Buffer_toString_base64, base64url_encode.
  induction bs as [|a|a b|a b c rest IH] using bytes_ind3.
  - reflexivity.
  - cbn [encode_with]. now rewrite !base64ToBase64URL_digit.
  - cbn [encode_with]. now rewrite !base64ToBase64URL_digit.
  - cbn [encode_with]. rewrite !base64ToBase64URL_digit. now rewrite IH.
Qed.

End Base64Facts.

(** ** The service *)

Section ServiceFacts.

Context `{T : KmsTypes}.
Variable dp256 : DeterministicP256.

Lemma isP256_true (type : KmsCreateKeyType) :
  isP256 type = true <->
  type_kty type = "EC" /\ type_crv type = Some "P-256".
Proof.
  unfold isP256. destruct (type_crv type) as [crv|].
  - rewrite andb_true_iff, !String.eqb_eq. split.
    + intros [-> ->]. now split.
    + intros [-> E]. injection E as ->. now split.
  - rewrite andb_false_r. split; [discriminate | intros [_ E]; discriminate].
Qed.

Lemma slice_0_32 (a : bytes) : slice 0 32 a = firstn 32 a.
Proof. reflexivity. Qed.

Lemma slice_32_64 (a : bytes) : slice 32 64 a = firstn 32 (skipn 32 a).
Proof. reflexivity. Qed.

(** What the deterministic path does, in one equation: it runs the
    derivation; on success it logs one message and returns the record, on
    failure it wraps the error and leaves the world alone. *)
Lemma createDeterministicP256Key_run (this : BIP39KeyManagementService)
  (agentContext : AgentContext) (options : BIP39CreateKeyOptions)
  (p : DeterministicP256Options) (w : World) :
  p256Options options = Some p ->
  createDeterministicP256Key dp256 this agentContext options w =
  match derivedPublicKeyBytes dp256 (mnemonic p) (origin p) (userHandle p)
          (counterOrDefault p)
  with
  | Return pk =>
      (Return (publicKeyRecord (origin p) (userHandle p)
                 (counterOrDefault p) pk),
       logged agentContext
         ("Generated deterministic P-256 passkey for origin: " ++ origin p
            ++ ", user: " ++ userHandle p) w)
  | Throw e => (Throw (derivationFailure e), w)
  end.
Proof.
  intros Hp. unfold createDeterministicP256Key. rewrite Hp.
  unfold derivedPublicKeyBytes, try_catch, bind, await.
  destruct (genDerivedMainKeyWithBIP39 dp256 (mnemonic p)) as [mainKey|e];
    [|reflexivity].
  destruct (genDomainSpecificKeyPair dp256 mainKey (origin p) (userHandle p)
              (counterOrDefault p))
    as [privateKey|e]; [|reflexivity].
  destruct (getPurePKBytes dp256 privateKey) as [pk|e]; [|reflexivity].
  unfold logger_debug, ret, logged, publicKeyRecord, keyIdOf.
  rewrite slice_0_32, slice_32_64.
  now rewrite !Base64Facts.base64ToBase64URL_of_base64.
Qed.

(** On a P-256 request that carries its options, [createKey] is the
    deterministic path. *)
Lemma createKey_p256 (this : BIP39KeyManagementService)
  (agentContext : AgentContext) (options : BIP39CreateKeyOptions)
  (p : DeterministicP256Options) :
  isP256 (opt_type options) = true ->
  p256Options options = Some p ->
  createKey dp256 this agentContext options =
  createDeterministicP256Key dp256 this agentContext options.
Proof.
  intros Ht Hp. unfold createKey. now rewrite Ht, Hp.
Qed.

(** C1. A P-256 request with p256Options, on which the three derivation
    steps succeed, returns a record whose keyId is
    [p256-<origin>-<userHandle>-<counter>] and whose publicJwk has kty EC,
    crv P-256, that keyId as kid, and as x and y the base64url encodings of
    bytes 0..31 and 32..63 of the public key bytes. The counter is the one
    of the options, or 0 when they have none; it is what the derivation
    receives, and for a safe integer it stands in the keyId as its decimal
    numeral. *)
Theorem createKey_p256_returns_record
  (this : BIP39KeyManagementService) (agentContext : AgentContext)
  (options : BIP39CreateKeyOptions) (p : DeterministicP256Options)
  (c : Z) (mainKey privateKey publicKeyBytes : bytes) (w : World) :
  type_kty (opt_type options) = "EC" ->
  type_crv (opt_type options) = Some "P-256" ->
  p256Options options = Some p ->
  c = match counter p with Some n => n | None => 0%Z end ->
  isSafeInteger c = true ->
  genDerivedMainKeyWithBIP39 dp256 (mnemonic p) = Return mainKey ->
  genDomainSpecificKeyPair dp256 mainKey (origin p) (userHandle p) c
    = Return privateKey ->
  getPurePKBytes dp256 privateKey = Return publicKeyBytes ->
  exists r : KmsCreateKeyReturn,
    fst (createKey dp256 this agentContext options w) = Return r
    /\ keyId r =
       ("p256-" ++ origin p ++ "-" ++ userHandle p ++ "-"
          ++ NilEmpty.string_of_int (Z.to_int c))%string
    /\ jwk_kty (publicJwk r) = "EC"
    /\ jwk_crv (publicJwk r) = Some "P-256"
    /\ jwk_kid (publicJwk r) = Some (keyId r)
    /\ jwk_x (publicJwk r)
       = Some (Base64.base64url_encode (firstn 32 publicKeyBytes))
    /\ jwk_y (publicJwk r)
       = Some (Base64.base64url_encode (firstn 32 (skipn 32 publicKeyBytes))).
Proof.
  intros Hkty Hcrv Hp Hc _ H1 H2 H3.
  assert (Ht : isP256 (opt_type options) = true) by now apply isP256_true.
  assert (Hd : counterOrDefault p = c) by (now subst c).
  rewrite (createKey_p256 _ _ _ _ Ht Hp).
  rewrite (createDeterministicP256Key_run _ _ _ _ _ Hp).
  unfold derivedPublicKeyBytes. rewrite Hd, H1, H2, H3.
  eexists. split; [reflexivity|].
  cbn [fst publicKeyRecord keyId publicJwk jwk_kty jwk_crv jwk_kid jwk_x
         jwk_y].
  unfold numberToString. repeat split.
Qed.

(** C2. Two invocations of createKey for P-256 with the same mnemonic,
    origin, userHandle and counter return the same result, whatever the
    wrapped service, its store, the calls made so far, the log and the
    agent context of each invocation. *)
Theorem createKey_p256_deterministic
  (this1 this2 : BIP39KeyManagementService)
  (agentContext1 agentContext2 : AgentContext)
  (options1 options2 : BIP39CreateKeyOptions) (w1 w2 : World) :
  isP256 (opt_type options1) = true ->
  isP256 (opt_type options2) = true ->
  p256Options options1 = p256Options options2 ->
  fst (createKey dp256 this1 agentContext1 options1 w1) =
  fst (createKey dp256 this2 agentContext2 options2 w2).
Proof.
  intros Ht1 Ht2 Hp.
  destruct (p256Options options2) as [p|] eqn:Hp2.
  - rewrite (createKey_p256 _ _ _ _ Ht1 Hp), (createKey_p256 _ _ _ _ Ht2 Hp2).
    rewrite (createDeterministicP256Key_run _ _ _ _ _ Hp).
    rewrite (createDeterministicP256Key_run _ _ _ _ _ Hp2).
    now destruct (derivedPublicKeyBytes dp256 _ _ _ _).
  - unfold createKey. now rewrite Ht1, Ht2, Hp, Hp2.
Qed.

(** C3, as amended. A request whose type is not EC/P-256 is forwarded
    unmodified to the wrapped service, whose result is returned; this is so
    with or without p256Options. *)
Theorem createKey_other_types_forwarded
  (this : BIP39KeyManagementService) (agentContext : AgentContext)
  (options : BIP39CreateKeyOptions) :
  isP256 (opt_type options) = false ->
  PassesThrough (createKey dp256 this agentContext options)
    (CallCreateKey agentContext options)
    (kms_createKey (wrappedKms this) agentContext options).
Proof.
  intros Ht w. unfold createKey, invoke. rewrite Ht.
  destruct (kms_createKey (wrappedKms this) agentContext options (kmsStore w)).
  cbn. repeat split.
Qed.

(** C4. A P-256 request fails with the missing-options error exactly when
    it carries no p256Options, and then the world is as before: no call on
    the wrapped service, its store untouched, nothing logged. *)
Theorem createKey_p256_missing_context
  (this : BIP39KeyManagementService) (agentContext : AgentContext)
  (options : BIP39CreateKeyOptions) (w : World) :
  type_kty (opt_type options) = "EC" ->
  type_crv (opt_type options) = Some "P-256" ->
  (fst (createKey dp256 this agentContext options w)
     = Throw missing_p256Options
   <-> p256Options options = None)
  /\ (p256Options options = None ->
      snd (createKey dp256 this agentContext options w) = w).
Proof.
  intros Hkty Hcrv.
  assert (Ht : isP256 (opt_type options) = true) by now apply isP256_true.
  destruct (p256Options options) as [p|] eqn:Hp.
  - split; [|discriminate]. split; [|discriminate].
    rewrite (createKey_p256 _ _ _ _ Ht Hp).
    rewrite (createDeterministicP256Key_run _ _ _ _ _ Hp).
    destruct (derivedPublicKeyBytes dp256 _ _ _ _); cbn; discriminate.
  - unfold createKey. rewrite Ht, Hp. cbn. repeat split.
Qed.

(** C5, as amended. The service does not examine the counter: a negative
    one is handed to the derivation as it is, a successful derivation
    returns the record whose identifier ends in that negative numeral (a
    hyphen, then the decimal numeral of the magnitude, for a safe integer),
    and the only failure is a failure of the derivation, wrapped. *)
Theorem createKey_negative_counter_not_checked
  (this : BIP39KeyManagementService) (agentContext : AgentContext)
  (options : BIP39CreateKeyOptions) (p : DeterministicP256Options)
  (c : Z) (w : World) :
  isP256 (opt_type options) = true ->
  p256Options options = Some p ->
  counter p = Some c ->
  (c < 0)%Z ->
  isSafeInteger c = true ->
  fst (createKey dp256 this agentContext options w) =
  match derivedPublicKeyBytes dp256 (mnemonic p) (origin p) (userHandle p) c
  with
  | Return pk =>
      let id :=
        ("p256-" ++ origin p ++ "-" ++ userHandle p ++ "-"
           ++ "-" ++ NilEmpty.string_of_int (Z.to_int (- c)))%string in
      Return
        {| keyId := id;
           publicJwk :=
             {| jwk_kty := "EC";
                jwk_crv := Some "P-256";
                jwk_x := Some (Base64.base64url_encode (firstn 32 pk));
                jwk_y :=
                  Some (Base64.base64url_encode (firstn 32 (skipn 32 pk)));
                jwk_kid := Some id |} |}
  | Throw e =>
      Throw
        (CredoError
           ("Failed to generate deterministic P-256 passkey: "
              ++ error_message_or_unknown e)
           (Some e))
  end.
Proof.
  intros Ht Hp Hc Hneg _.
  rewrite (createKey_p256 _ _ _ _ Ht Hp).
  rewrite (createDeterministicP256Key_run _ _ _ _ _ Hp).
  unfold counterOrDefault. rewrite Hc.
  destruct (derivedPublicKeyBytes dp256 _ _ _ _) as [pk|e]; [|reflexivity].
  cbn [fst]. unfold publicKeyRecord, numberToString.
  destruct c as [|q|q]; try lia. reflexivity.
Qed.

(** C6, as amended. Among contexts whose userHandle holds no hyphen and
    whose counter is not negative, distinct contexts have distinct
    identifiers. *)
Theorem keyIdOf_injective
  (origin1 userHandle1 origin2 userHandle2 : string) (counter1 counter2 : Z) :
  includes "-" userHandle1 = false ->
  includes "-" userHandle2 = false ->
  (0 <= counter1)%Z -> (0 <= counter2)%Z ->
  keyIdOf origin1 userHandle1 counter1 = keyIdOf origin2 userHandle2 counter2 ->
  (origin1, userHandle1, counter1) = (origin2, userHandle2, counter2).
Proof.
  intros Hu1 Hu2 Hc1 Hc2 E. unfold keyIdOf in E.
  apply append_cancel_l in E.
  change ("-" ++ ?s)%string with (String "-" s) in E.
  assert (E' :
    ((origin1 ++ String "-" userHandle1) ++ String "-" (numberToString counter1)
     = (origin2 ++ String "-" userHandle2) ++ String "-" (numberToString counter2))%string).
  { rewrite !append_assoc. exact E. }
  apply cut_at_last in E' as [Eou Ec];
    try now apply numberToString_nonneg_no_minus.
  apply numberToString_inj in Ec.
  apply cut_at_last in Eou as [Eo Eu]; try assumption.
  now subst.
Qed.

(** Among contexts in which neither the origin nor the userHandle holds a
    hyphen, distinct contexts have distinct identifiers, whatever the
    counters, negative ones included. *)
Lemma keyIdOf_injective_plain
  (origin1 userHandle1 origin2 userHandle2 : string) (counter1 counter2 : Z) :
  includes "-" origin1 = false -> includes "-" origin2 = false ->
  includes "-" userHandle1 = false -> includes "-" userHandle2 = false ->
  keyIdOf origin1 userHandle1 counter1 = keyIdOf origin2 userHandle2 counter2 ->
  (origin1, userHandle1, counter1) = (origin2, userHandle2, counter2).
Proof.
  intros Ho1 Ho2 Hu1 Hu2 E. unfold keyIdOf in E.
  apply append_cancel_l in E.
  change ("-" ++ ?s)%string with (String "-" s) in E.
  apply cut_at_first in E as [Eo E]; try assumption.
  apply cut_at_first in E as [Eu Ec]; try assumption.
  apply numberToString_inj in Ec. now subst.
Qed.

(** For one origin and one userHandle, whatever characters they hold, the
    counter alone tells identifiers apart. *)
Lemma keyIdOf_injective_counter (origin userHandle : string) (c1 c2 : Z) :
  keyIdOf origin userHandle c1 = keyIdOf origin userHandle c2 -> c1 = c2.
Proof.
  unfold keyIdOf. intros E.
  do 5 apply append_cancel_l in E.
  now apply numberToString_inj.
Qed.

(** C7. getPublicKey, importKey, deleteKey, randomBytes, sign, verify,
    encrypt and decrypt each pass their arguments to the method of the same
    name of the wrapped service and return its result. *)
Theorem operations_pass_through (this : BIP39KeyManagementService)
  (agentContext : AgentContext) :
  (forall keyId,
     PassesThrough (getPublicKey this agentContext keyId)
       (CallGetPublicKey agentContext keyId)
       (kms_getPublicKey (wrappedKms this) agentContext keyId))
  /\ (forall options,
        PassesThrough (importKey this agentContext options)
          (CallImportKey agentContext options)
          (kms_importKey (wrappedKms this) agentContext options))
  /\ (forall options,
        PassesThrough (deleteKey this agentContext options)
          (CallDeleteKey agentContext options)
          (kms_deleteKey (wrappedKms this) agentContext options))
  /\ (forall options,
        PassesThrough (randomBytes this agentContext options)
          (CallRandomBytes agentContext options)
          (kms_randomBytes (wrappedKms this) agentContext options))
  /\ (forall options,
        PassesThrough (sign this agentContext options)
          (CallSign agentContext options)
          (kms_sign (wrappedKms this) agentContext options))
  /\ (forall options,
        PassesThrough (verify this agentContext options)
          (CallVerify agentContext options)
          (kms_verify (wrappedKms this) agentContext options))
  /\ (forall options,
        PassesThrough (encrypt this agentContext options)
          (CallEncrypt agentContext options)
          (kms_encrypt (wrappedKms this) agentContext options))
  /\ (forall options,
        PassesThrough (decrypt this agentContext options)
          (CallDecrypt agentContext options)
          (kms_decrypt (wrappedKms this) agentContext options)).
Proof.
  assert (Hinvoke : forall A call (method : Method A),
            PassesThrough (invoke call method) call method).
  { intros A call method w. unfold invoke.
    destruct (method (kmsStore w)). cbn. repeat split. }
  repeat split; intros; apply Hinvoke.
Qed.

(** C8. Key creation for P-256, with or without p256Options and whether it
    returns or throws, makes no call on the wrapped service and leaves its
    store as it was; the same is true of the deterministic path entered
    directly. *)
Theorem createKey_p256_backend_untouched
  (this : BIP39KeyManagementService) (agentContext : AgentContext)
  (options : BIP39CreateKeyOptions) (w : World) :
  type_kty (opt_type options) = "EC" ->
  type_crv (opt_type options) = Some "P-256" ->
  BackendUntouched w (snd (createKey dp256 this agentContext options w))
  /\ BackendUntouched w
       (snd (createDeterministicP256Key dp256 this agentContext options w)).
Proof.
  intros Hkty Hcrv.
  assert (Ht : isP256 (opt_type options) = true) by now apply isP256_true.
  assert (Hd : BackendUntouched w
            (snd (createDeterministicP256Key dp256 this agentContext options w))).
  { destruct (p256Options options) as [p|] eqn:Hp.
    - rewrite (createDeterministicP256Key_run _ _ _ _ _ Hp).
      destruct (derivedPublicKeyBytes dp256 _ _ _ _); cbn; now split.
    - unfold createDeterministicP256Key. rewrite Hp. cbn. now split. }
  split; [|exact Hd].
  destruct (p256Options options) as [p|] eqn:Hp.
  - now rewrite (createKey_p256 _ _ _ _ Ht Hp).
  - unfold createKey. rewrite Ht, Hp. cbn. now split.
Qed.

(** C9. supportsKeyType and isOperationSupported answer true to every
    question, whatever the wrapped service would answer. *)
Theorem capabilities_always_true (this : BIP39KeyManagementService)
  (agentContext : AgentContext) :
  (forall type : KmsCreateKeyType,
     supportsKeyType this agentContext type = true)
  /\ (forall operation : KmsOperation,
        isOperationSupported this agentContext operation = true).
Proof. split; reflexivity. Qed.

(** C10. The backend name of a service is BIP39P256, whichever service it
    wraps. *)
Theorem backend_is_constant (wrappedKms : KeyManagementService) :
  backend (new_BIP39KeyManagementService wrappedKms) = "BIP39P256".
Proof. reflexivity. Qed.

End ServiceFacts.

(** ** The properties on the fixtures of the unit tests *)

Section OnFixtures.

Import Fixtures.

(** The second test: counter 5 reaches the identifier as the numeral 5. *)
Lemma createKey_p256_returns_record_witness :
  exists r : KmsCreateKeyReturn,
    fst (createKey mockDp256 bip39Kms mockAgentContext
           (passkeyRequest (Some 5%Z)) emptyWorld) = Return r
    /\ keyId r = "p256-https://example.com-user123-5"
    /\ jwk_kty (publicJwk r) = "EC"
    /\ jwk_crv (publicJwk r) = Some "P-256"
    /\ jwk_kid (publicJwk r) = Some (keyId r)
    /\ jwk_x (publicJwk r)
       = Some "AwMDAwMDAwMDAwMDAwMDAwMDAwMDAwMDAwMDAwMDAwM"
    /\ jwk_y (publicJwk r)
       = Some "AwMDAwMDAwMDAwMDAwMDAwMDAwMDAwMDAwMDAwMDAwM".
Proof.
  exact (createKey_p256_returns_record mockDp256 bip39Kms mockAgentContext
           (passkeyRequest (Some 5%Z))
           {| mnemonic := TEST_MNEMONIC; origin := TEST_ORIGIN;
              userHandle := TEST_USER_HANDLE; counter := Some 5%Z |}
           5%Z
           (Uint8Array_fill 32 x01) (Uint8Array_fill 32 x02)
           (Uint8Array_fill 64 x03) emptyWorld
           eq_refl eq_refl eq_refl eq_refl eq_refl eq_refl eq_refl eq_refl).
Defined.

(** The first test: without a counter the identifier ends in 0. *)
Example createKey_default_counter :
  fst (createKey mockDp256 bip39Kms mockAgentContext (passkeyRequest None)
         emptyWorld)
  = Return
      {| keyId := "p256-https://example.com-user123-0";
         publicJwk :=
           {| jwk_kty := "EC";
              jwk_crv := Some "P-256";
              jwk_x := Some "AwMDAwMDAwMDAwMDAwMDAwMDAwMDAwMDAwMDAwMDAwM";
              jwk_y := Some "AwMDAwMDAwMDAwMDAwMDAwMDAwMDAwMDAwMDAwMDAwM";
              jwk_kid := Some "p256-https://example.com-user123-0" |} |}.
Proof. reflexivity. Qed.

(** The rendering at the ends of the safe range and around zero. *)
Example numberToString_samples :
  numberToString 0 = "0"
  /\ numberToString 5 = "5"
  /\ numberToString (-1) = "-1"
  /\ numberToString 120 = "120"
  /\ numberToString MAX_SAFE_INTEGER = "9007199254740991"
  /\ numberToString (- MAX_SAFE_INTEGER) = "-9007199254740991".
Proof. repeat split. Qed.

(** The same request on a fresh world and on one with a call and a message
    behind it. *)
Lemma createKey_p256_deterministic_witness :
  fst (createKey mockDp256 bip39Kms mockAgentContext (passkeyRequest (Some 5%Z))
         emptyWorld) =
  fst (createKey mockDp256 bip39Kms mockAgentContext (passkeyRequest (Some 5%Z))
         {| kmsStore := tt;
            kmsCalls := [CallSign mockAgentContext [x01]];
            debugLog := [(mockAgentContext, "earlier")] |}).
Proof.
  apply (createKey_p256_deterministic mockDp256); reflexivity.
Defined.

(** The last test: an Ed25519 request reaches the wrapped service. *)
Lemma createKey_other_types_forwarded_witness :
  PassesThrough
    (createKey mockDp256 bip39Kms mockAgentContext (plainRequest Ed25519))
    (CallCreateKey mockAgentContext (plainRequest Ed25519))
    (kms_createKey mockWrappedKms mockAgentContext (plainRequest Ed25519)).
Proof.
  apply (createKey_other_types_forwarded mockDp256 bip39Kms). reflexivity.
Defined.

(** C3, as stated, fails: a P-256 request without p256Options is not
    forwarded. The wrapped service would have returned its key; the call
    throws instead and the wrapped service sees nothing. *)
Lemma createKey_p256_without_options_not_forwarded :
  p256Options (plainRequest P256) = None
  /\ fst (kms_createKey mockWrappedKms mockAgentContext (plainRequest P256) tt)
     = Return mockKeyReturn
  /\ createKey mockDp256 bip39Kms mockAgentContext (plainRequest P256)
       emptyWorld
     = (Throw missing_p256Options, emptyWorld)
  /\ ~ PassesThrough
         (createKey mockDp256 bip39Kms mockAgentContext (plainRequest P256))
         (CallCreateKey mockAgentContext (plainRequest P256))
         (kms_createKey mockWrappedKms mockAgentContext (plainRequest P256)).
Proof.
  repeat split. intros H.
  destruct (H emptyWorld) as [Hfst _]. discriminate Hfst.
Qed.

(** The third test: P-256 without p256Options. *)
Lemma createKey_p256_missing_context_witness :
  (fst (createKey mockDp256 bip39Kms mockAgentContext (plainRequest P256)
          emptyWorld) = Throw missing_p256Options
   <-> p256Options (plainRequest P256) = None)
  /\ (p256Options (plainRequest P256) = None ->
      snd (createKey mockDp256 bip39Kms mockAgentContext (plainRequest P256)
             emptyWorld) = emptyWorld).
Proof.
  apply (createKey_p256_missing_context mockDp256); reflexivity.
Defined.

(** C5, as stated, fails: with counter -1 the call returns a key. *)
Lemma createKey_negative_counter_returns :
  counter {| mnemonic := TEST_MNEMONIC; origin := TEST_ORIGIN;
             userHandle := TEST_USER_HANDLE; counter := Some (-1)%Z |}
  = Some (-1)%Z
  /\ fst (createKey mockDp256 bip39Kms mockAgentContext
            (passkeyRequest (Some (-1)%Z)) emptyWorld)
     = Return
         {| keyId := "p256-https://example.com-user123--1";
            publicJwk :=
              {| jwk_kty := "EC";
                 jwk_crv := Some "P-256";
                 jwk_x := Some "AwMDAwMDAwMDAwMDAwMDAwMDAwMDAwMDAwMDAwMDAwM";
                 jwk_y := Some "AwMDAwMDAwMDAwMDAwMDAwMDAwMDAwMDAwMDAwMDAwM";
                 jwk_kid := Some "p256-https://example.com-user123--1" |} |}
  /\ forall e : Thrown,
       fst (createKey mockDp256 bip39Kms mockAgentContext
              (passkeyRequest (Some (-1)%Z)) emptyWorld)
       <> Throw e.
Proof.
  repeat split. intros e H. discriminate H.
Qed.

Lemma createKey_negative_counter_not_checked_witness :
  fst (createKey mockDp256 bip39Kms mockAgentContext
         (passkeyRequest (Some (-1)%Z)) emptyWorld)
  = Return
      {| keyId := "p256-https://example.com-user123--1";
         publicJwk :=
           {| jwk_kty := "EC";
              jwk_crv := Some "P-256";
              jwk_x := Some "AwMDAwMDAwMDAwMDAwMDAwMDAwMDAwMDAwMDAwMDAwM";
              jwk_y := Some "AwMDAwMDAwMDAwMDAwMDAwMDAwMDAwMDAwMDAwMDAwM";
              jwk_kid := Some "p256-https://example.com-user123--1" |} |}.
Proof.
  apply (createKey_negative_counter_not_checked mockDp256 bip39Kms
           mockAgentContext (passkeyRequest (Some (-1)%Z))
           {| mnemonic := TEST_MNEMONIC; origin := TEST_ORIGIN;
              userHandle := TEST_USER_HANDLE; counter := Some (-1)%Z |}
           (-1) emptyWorld);
    reflexivity.
Defined.

(** C6, as stated, fails: a hyphen may belong to the origin or to the
    userHandle, and the identifier does not tell which. *)
Lemma keyIdOf_collision :
  keyIdOf "a-b" "c" 0 = keyIdOf "a" "b-c" 0
  /\ ("a-b", "c", 0%Z) <> ("a", "b-c", 0%Z).
Proof.
  split; [reflexivity | discriminate].
Qed.

Lemma keyIdOf_injective_witness :
  (TEST_ORIGIN, TEST_USER_HANDLE, 1%Z) = ("https://example.com", "user123", 1%Z).
Proof.
  apply keyIdOf_injective; try reflexivity; lia.
Defined.

Lemma createKey_p256_backend_untouched_witness :
  BackendUntouched emptyWorld
    (snd (createKey mockDp256 bip39Kms mockAgentContext (passkeyRequest None)
            emptyWorld))
  /\ BackendUntouched emptyWorld
       (snd (createDeterministicP256Key mockDp256 bip39Kms mockAgentContext
               (passkeyRequest None) emptyWorld)).
Proof.
  apply (createKey_p256_backend_untouched mockDp256); reflexivity.
Defined.

End OnFixtures.

(** * Further properties of the code *)

(** ** The coordinates of the public key *)

Module CoordinateFacts.
Import Base64 Base64Decode Base64Facts.

Local Open Scope N_scope.

Ltac pow2_constants :=
  change (2 ^ 6) with 64 in *; change (2 ^ 8) with 256 in *;
  change (2 ^ 12) with 4096 in *; change (2 ^ 16) with 65536 in *;
  change (2 ^ 18) with 262144 in *.

(** Linear arithmetic with division and remainder by constants. *)
Ltac euclid := pow2_constants; zify; Z.to_euclidean_division_equations; lia.

Lemma land_shiftl_low (hi lo k : N) :
  lo < 2 ^ k -> N.land (hi * 2 ^ k) lo = 0.
Proof.
  intros Hlo. apply N.bits_inj. intros i.
  rewrite N.land_spec, N.bits_0.
  destruct (N.ltb_spec i k) as [Hi|Hi].
  - now rewrite N.mul_pow2_bits_low.
  - destruct (N.eq_dec lo 0) as [->|Hne];
      [now rewrite N.bits_0, andb_false_r|].
    rewrite (N.bits_above_log2 lo i); [now rewrite andb_false_r|].
    apply N.log2_lt_pow2 in Hlo; lia.
Qed.

(** Or-ing into zeroed low bits is adding. *)
Lemma lor_shiftl_low (hi lo k : N) :
  lo < 2 ^ k -> N.lor (N.shiftl hi k) lo = hi * 2 ^ k + lo.
Proof.
  intros Hlo. rewrite N.shiftl_mul_pow2.
  rewrite <- N.lxor_lor by now apply land_shiftl_low.
  symmetry. apply N.add_nocarry_lxor. now apply land_shiftl_low.
Qed.

Lemma to_N_lt (b : byte) : Byte.to_N b < 256.
Proof. pose proof (Byte.to_N_bounded b). lia. Qed.

Lemma group_sum (a b c : byte) :
  group a b c = Byte.to_N a * 65536 + Byte.to_N b * 256 + Byte.to_N c.
Proof.
  unfold group.
  pose proof (to_N_lt a). pose proof (to_N_lt b). pose proof (to_N_lt c).
  rewrite (lor_shiftl_low _ _ 8) by (pow2_constants; lia).
  rewrite (lor_shiftl_low _ _ 16) by (pow2_constants; lia).
  pow2_constants. lia.
Qed.

Lemma group_lt (a b c : byte) : group a b c < 16777216.
Proof.
  rewrite group_sum.
  pose proof (to_N_lt a). pose proof (to_N_lt b). pose proof (to_N_lt c).
  lia.
Qed.

(** The four sextets of a 24-bit number put it together again. *)
Lemma regroup_sextets (n : N) :
  n < 16777216 ->
  regroup (N.land (N.shiftr n 18) 63) (N.land (N.shiftr n 12) 63)
          (N.land (N.shiftr n 6) 63) (N.land n 63) = n.
Proof.
  intros H. unfold regroup.
  change 63 with (N.ones 6). rewrite !N.land_ones, !N.shiftr_div_pow2.
  rewrite (lor_shiftl_low _ _ 6) by euclid.
  rewrite (lor_shiftl_low _ _ 12) by euclid.
  rewrite (lor_shiftl_low _ _ 18) by euclid.
  euclid.
Qed.

Lemma regroup_two (a b : byte) :
  let n := group a b x00 in
  regroup (N.land (N.shiftr n 18) 63) (N.land (N.shiftr n 12) 63)
          (N.land (N.shiftr n 6) 63) 0 = n.
Proof.
  intros n. pose proof (regroup_sextets n (group_lt a b x00)) as R.
  assert (H0 : N.land n 63 = 0).
  { unfold n. rewrite group_sum. change (Byte.to_N x00) with 0.
    change 63 with (N.ones 6). rewrite N.land_ones. euclid. }
  now rewrite H0 in R.
Qed.

Lemma regroup_one (a : byte) :
  let n := group a x00 x00 in
  regroup (N.land (N.shiftr n 18) 63) (N.land (N.shiftr n 12) 63) 0 0 = n.
Proof.
  intros n. pose proof (regroup_two a x00) as R. fold n in R. cbv zeta in R.
  assert (H0 : N.land (N.shiftr n 6) 63 = 0).
  { unfold n. rewrite group_sum. change (Byte.to_N x00) with 0.
    change 63 with (N.ones 6). rewrite N.land_ones, N.shiftr_div_pow2.
    euclid. }
  now rewrite H0 in R.
Qed.

Lemma low_byte_to_N (hi : N) (b : byte) :
  low_byte (hi * 256 + Byte.to_N b) = b.
Proof.
  unfold low_byte. change 255 with (N.ones 8). rewrite N.land_ones.
  pose proof (to_N_lt b).
  replace ((hi * 256 + Byte.to_N b) mod 2 ^ 8) with (Byte.to_N b) by euclid.
  now rewrite Byte.of_to_N.
Qed.

Lemma ungroup (a b c : byte) :
  low_byte (N.shiftr (group a b c) 16) = a
  /\ low_byte (N.shiftr (group a b c) 8) = b
  /\ low_byte (group a b c) = c.
Proof.
  rewrite group_sum, !N.shiftr_div_pow2.
  pose proof (to_N_lt a). pose proof (to_N_lt b). pose proof (to_N_lt c).
  repeat split.
  - replace ((Byte.to_N a * 65536 + Byte.to_N b * 256 + Byte.to_N c) / 2 ^ 16)
      with (0 * 256 + Byte.to_N a) by euclid.
    apply low_byte_to_N.
  - replace ((Byte.to_N a * 65536 + Byte.to_N b * 256 + Byte.to_N c) / 2 ^ 8)
      with (Byte.to_N a * 256 + Byte.to_N b) by euclid.
    apply low_byte_to_N.
  - replace (Byte.to_N a * 65536 + Byte.to_N b * 256 + Byte.to_N c)
      with ((Byte.to_N a * 256 + Byte.to_N b) * 256 + Byte.to_N c) by lia.
    apply low_byte_to_N.
Qed.

Lemma all_sextets_read_back :
  forallb (fun i => N.eqb (sextet_of (digit url_alphabet (N.of_nat i)))
                          (N.of_nat i))
          (seq 0 64) = true.
Proof. vm_compute. reflexivity. Qed.

Lemma sextet_of_digit (n : N) :
  sextet_of (digit url_alphabet n) = N.land n 63.
Proof.
  assert (Hlt : N.land n 63 < 64).
  { change 63 with (N.ones 6). rewrite N.land_ones.
    apply N.mod_lt. discriminate. }
  assert (Hd : digit url_alphabet n = digit url_alphabet (N.land n 63)).
  { unfold digit. now rewrite <- N.land_assoc, N.land_diag. }
  rewrite Hd.
  pose proof all_sextets_read_back as Hall.
  rewrite forallb_forall in Hall.
  specialize (Hall (N.to_nat (N.land n 63))).
  rewrite N2Nat.id in Hall. apply N.eqb_eq. apply Hall.
  apply in_seq. lia.
Qed.

(** Decoding undoes encoding, for byte strings of every length. *)
Lemma base64url_decode_encode (bs : bytes) :
  base64url_decode (base64url_encode bs) = bs.
Proof.
  unfold base64url_encode.
  induction bs as [|a|a b|a b c rest IH] using bytes_ind3.
  - reflexivity.
  - cbn [encode_with append base64url_decode].
    rewrite !sextet_of_digit, (regroup_one a).
    now destruct (ungroup a x00 x00) as (-> & _ & _).
  - cbn [encode_with append base64url_decode].
    rewrite !sextet_of_digit, (regroup_two a b).
    now destruct (ungroup a b x00) as (-> & -> & _).
  - cbn [encode_with append base64url_decode].
    rewrite !sextet_of_digit.
    rewrite regroup_sextets by apply group_lt.
    rewrite IH.
    now destruct (ungroup a b c) as (-> & -> & ->).
Qed.

End CoordinateFacts.

Section EncodingFacts.
Import Base64 Base64Facts.

Lemma all_url_digits_safe :
  forallb (fun i =>
             let c := digit url_alphabet (N.of_nat i) in
             negb (Ascii.eqb c "+") && negb (Ascii.eqb c "/")
             && negb (Ascii.eqb c "="))
          (seq 0 64) = true.
Proof. vm_compute. reflexivity. Qed.

Lemma digit_url_safe (n : N) :
  Ascii.eqb (digit url_alphabet n) "+" = false
  /\ Ascii.eqb (digit url_alphabet n) "/" = false
  /\ Ascii.eqb (digit url_alphabet n) "=" = false.
Proof.
  assert (Hlt : (N.land n 63 < 64)%N).
  { change 63%N with (N.ones 6). rewrite N.land_ones.
    apply N.mod_lt. discriminate. }
  assert (Hd : digit url_alphabet n = digit url_alphabet (N.land n 63)).
  { unfold digit. now rewrite <- N.land_assoc, N.land_diag. }
  rewrite Hd.
  pose proof all_url_digits_safe as Hall.
  rewrite forallb_forall in Hall.
  specialize (Hall (N.to_nat (N.land n 63))).
  rewrite N2Nat.id in Hall. cbv zeta in Hall.
  assert (Hin : In (N.to_nat (N.land n 63)) (seq 0 64)) by (apply in_seq; lia).
  specialize (Hall Hin).
  apply andb_true_iff in Hall as [Hall H3].
  apply andb_true_iff in Hall as [H1 H2].
  now rewrite negb_true_iff in H1, H2, H3.
Qed.

(** The encoding uses no character that a URL or a padded base64 text would
    need escaped or stripped. *)
Lemma base64url_encode_safe (bs : bytes) :
  includes "+" (base64url_encode bs) = false
  /\ includes "/" (base64url_encode bs) = false
  /\ includes "=" (base64url_encode bs) = false.
Proof.
  unfold base64url_encode.
  induction bs as [|a|a b|a b c rest (IH1 & IH2 & IH3)] using bytes_ind3;
    cbn [encode_with append includes];
    repeat match goal with
           | |- context [Ascii.eqb (digit url_alphabet ?n) _] =>
               destruct (digit_url_safe n) as (-> & -> & ->)
           end;
    cbn [orb]; auto.
Qed.

(** Four characters for every three bytes, rounded up. *)
Lemma base64url_encode_length (bs : bytes) :
  String.length (base64url_encode bs) = (4 * List.length bs + 2) / 3.
Proof.
  unfold base64url_encode.
  induction bs as [|a|a b|a b c rest IH] using bytes_ind3;
    try reflexivity.
  cbn [encode_with String.length List.length]. rewrite IH.
  replace (4 * S (S (S (List.length rest))) + 2)
    with (4 * List.length rest + 2 + 4 * 3) by lia.
  rewrite Nat.div_add by discriminate. lia.
Qed.

Lemma firstn_64_halves (pk : bytes) :
  firstn 64 pk = firstn 32 pk ++ firstn 32 (skipn 32 pk).
Proof.
  rewrite <- (firstn_skipn 32 (firstn 64 pk)).
  rewrite firstn_firstn. change (Nat.min 32 64) with 32.
  f_equal. symmetry. apply (firstn_skipn_comm 32 32).
Qed.

End EncodingFacts.

(** ** Failures, the log and the public key bytes *)

Section MoreServiceFacts.

Context `{T : KmsTypes}.
Variable dp256 : DeterministicP256.

(** A derivation that fails, at whichever of its three steps, makes the
    call throw a CredoError whose message is the fixed prefix followed by
    the message of the failure (or by "Unknown error" when what was thrown
    is not an Error), and whose cause is the failure itself. Nothing is
    logged and the wrapped service is not called. *)
Theorem createKey_p256_failure_wrapped
  (this : BIP39KeyManagementService) (agentContext : AgentContext)
  (options : BIP39CreateKeyOptions) (p : DeterministicP256Options)
  (e : Thrown) (w : World) :
  isP256 (opt_type options) = true ->
  p256Options options = Some p ->
  derivedPublicKeyBytes dp256 (mnemonic p) (origin p) (userHandle p)
    (counterOrDefault p) = Throw e ->
  createKey dp256 this agentContext options w =
  (Throw (CredoError
            ("Failed to generate deterministic P-256 passkey: "
               ++ match e with
                  | JsNonError _ => "Unknown error"
                  | JsError message | CredoError message _ => message
                  end)
            (Some e)),
   w).
Proof.
  intros Ht Hp He.
  rewrite (createKey_p256 _ _ _ _ _ Ht Hp).
  rewrite (createDeterministicP256Key_run _ _ _ _ _ _ Hp), He.
  unfold derivationFailure. now destruct e.
Qed.

(** Whatever a P-256 creation throws is a CredoError, never a raw error of
    the derivation library, and a creation that throws leaves the world as
    it found it. *)
Theorem createKey_p256_throws_only_CredoError
  (this : BIP39KeyManagementService) (agentContext : AgentContext)
  (options : BIP39CreateKeyOptions) (e : Thrown) (w : World) :
  isP256 (opt_type options) = true ->
  fst (createKey dp256 this agentContext options w) = Throw e ->
  (exists message cause, e = CredoError message cause)
  /\ snd (createKey dp256 this agentContext options w) = w.
Proof.
  intros Ht.
  destruct (p256Options options) as [p|] eqn:Hp.
  - rewrite (createKey_p256 _ _ _ _ _ Ht Hp).
    rewrite (createDeterministicP256Key_run _ _ _ _ _ _ Hp).
    destruct (derivedPublicKeyBytes dp256 _ _ _ _) as [pk|e']; cbn;
      intros H; [discriminate|].
    injection H as <-. split; [|reflexivity]. unfold derivationFailure. eauto.
  - unfold createKey. rewrite Ht, Hp. cbn. intros H. injection H as <-.
    split; [|reflexivity]. unfold missing_p256Options. eauto.
Qed.

(** A P-256 creation that returns has changed one thing only: one debug
    message was logged, and its text is made of the origin and the
    userHandle alone. *)
Theorem createKey_p256_logs_once
  (this : BIP39KeyManagementService) (agentContext : AgentContext)
  (options : BIP39CreateKeyOptions) (r : KmsCreateKeyReturn) (w : World) :
  isP256 (opt_type options) = true ->
  fst (createKey dp256 this agentContext options w) = Return r ->
  exists p : DeterministicP256Options,
    p256Options options = Some p
    /\ kmsStore (snd (createKey dp256 this agentContext options w))
       = kmsStore w
    /\ kmsCalls (snd (createKey dp256 this agentContext options w))
       = kmsCalls w
    /\ debugLog (snd (createKey dp256 this agentContext options w))
       = debugLog w
         ++ [(agentContext,
              ("Generated deterministic P-256 passkey for origin: "
                 ++ origin p ++ ", user: " ++ userHandle p)%string)].
Proof.
  intros Ht.
  destruct (p256Options options) as [p|] eqn:Hp.
  - rewrite (createKey_p256 _ _ _ _ _ Ht Hp).
    rewrite (createDeterministicP256Key_run _ _ _ _ _ _ Hp).
    destruct (derivedPublicKeyBytes dp256 _ _ _ _) as [pk|e']; cbn;
      intros H; [|discriminate].
    exists p. repeat split.
  - unfold createKey. rewrite Ht, Hp. cbn. discriminate.
Qed.

(** Leaving the counter out is asking for counter 0: the two requests have
    the same outcome and the same effect. *)
Theorem createKey_counter_default
  (this : BIP39KeyManagementService) (agentContext : AgentContext)
  (options0 options1 : BIP39CreateKeyOptions)
  (p0 p1 : DeterministicP256Options) (w : World) :
  isP256 (opt_type options0) = true ->
  isP256 (opt_type options1) = true ->
  p256Options options0 = Some p0 ->
  p256Options options1 = Some p1 ->
  mnemonic p0 = mnemonic p1 ->
  origin p0 = origin p1 ->
  userHandle p0 = userHandle p1 ->
  counter p0 = None ->
  counter p1 = Some 0%Z ->
  createKey dp256 this agentContext options0 w =
  createKey dp256 this agentContext options1 w.
Proof.
  intros Ht0 Ht1 Hp0 Hp1 Hm Ho Hu Hc0 Hc1.
  rewrite (createKey_p256 _ _ _ _ _ Ht0 Hp0), (createKey_p256 _ _ _ _ _ Ht1 Hp1).
  rewrite (createDeterministicP256Key_run _ _ _ _ _ _ Hp0).
  rewrite (createDeterministicP256Key_run _ _ _ _ _ _ Hp1).
  unfold counterOrDefault. now rewrite Hm, Ho, Hu, Hc0, Hc1.
Qed.

(** The identifier does not tell where the origin ends: a piece between
    two hyphens may belong to the origin or to the userHandle. *)
Theorem keyIdOf_hyphen_ambiguity (origin piece userHandle : string) (c : Z) :
  keyIdOf (origin ++ "-" ++ piece) userHandle c =
  keyIdOf origin (piece ++ "-" ++ userHandle) c.
Proof.
  unfold keyIdOf. now rewrite !append_assoc.
Qed.

(** Nor does it tell a negative counter from a userHandle that ends in a
    hyphen. *)
Theorem keyIdOf_negative_counter_ambiguity
  (origin userHandle : string) (c : Z) :
  (0 < c)%Z ->
  keyIdOf origin userHandle (- c) = keyIdOf origin (userHandle ++ "-") c.
Proof.
  intros Hc. unfold keyIdOf. rewrite !append_assoc.
  destruct c as [|q|q]; try lia. reflexivity.
Qed.

(** The length of the public key is not checked. With 32 bytes or fewer
    the call still returns: x encodes what there is and y is empty. *)
Theorem createKey_short_public_key
  (this : BIP39KeyManagementService) (agentContext : AgentContext)
  (options : BIP39CreateKeyOptions) (p : DeterministicP256Options)
  (pk : bytes) (w : World) :
  isP256 (opt_type options) = true ->
  p256Options options = Some p ->
  derivedPublicKeyBytes dp256 (mnemonic p) (origin p) (userHandle p)
    (counterOrDefault p) = Return pk ->
  List.length pk <= 32 ->
  exists r : KmsCreateKeyReturn,
    fst (createKey dp256 this agentContext options w) = Return r
    /\ jwk_x (publicJwk r) = Some (Base64.base64url_encode pk)
    /\ jwk_y (publicJwk r) = Some "".
Proof.
  intros Ht Hp Hpk Hlen.
  rewrite (createKey_p256 _ _ _ _ _ Ht Hp).
  rewrite (createDeterministicP256Key_run _ _ _ _ _ _ Hp), Hpk.
  eexists. split; [reflexivity|]. cbn [fst publicKeyRecord publicJwk jwk_x jwk_y].
  rewrite firstn_all2 by exact Hlen.
  rewrite skipn_all2 by exact Hlen. now split.
Qed.

(** With a 64-byte public key, x and y are 43 characters each and hold no
    [+], [/] or [=]. *)
Theorem createKey_coordinates_url_safe
  (this : BIP39KeyManagementService) (agentContext : AgentContext)
  (options : BIP39CreateKeyOptions) (p : DeterministicP256Options)
  (pk : bytes) (w : World) :
  isP256 (opt_type options) = true ->
  p256Options options = Some p ->
  derivedPublicKeyBytes dp256 (mnemonic p) (origin p) (userHandle p)
    (counterOrDefault p) = Return pk ->
  64 <= List.length pk ->
  exists (r : KmsCreateKeyReturn) (x y : string),
    fst (createKey dp256 this agentContext options w) = Return r
    /\ jwk_x (publicJwk r) = Some x /\ jwk_y (publicJwk r) = Some y
    /\ String.length x = 43 /\ String.length y = 43
    /\ includes "+" x = false /\ includes "/" x = false
    /\ includes "=" x = false
    /\ includes "+" y = false /\ includes "/" y = false
    /\ includes "=" y = false.
Proof.
  intros Ht Hp Hpk Hlen.
  rewrite (createKey_p256 _ _ _ _ _ Ht Hp).
  rewrite (createDeterministicP256Key_run _ _ _ _ _ _ Hp), Hpk.
  eexists. eexists. eexists. split; [reflexivity|].
  cbn [fst publicKeyRecord publicJwk jwk_x jwk_y].
  split; [reflexivity|]. split; [reflexivity|].
  rewrite !base64url_encode_length.
  rewrite !length_firstn, length_skipn.
  destruct (base64url_encode_safe (firstn 32 pk)) as (? & ? & ?).
  destruct (base64url_encode_safe (firstn 32 (skipn 32 pk))) as (? & ? & ?).
  replace (Nat.min 32 (List.length pk)) with 32 by lia.
  replace (Nat.min 32 (List.length pk - 32)) with 32 by lia.
  repeat split; assumption.
Qed.

End MoreServiceFacts.

(** ** Two derivations compared *)

Section TwoDerivations.

Context `{T : KmsTypes}.
Variables dp256 dp256' : DeterministicP256.

(** Only the first 64 bytes of the public key count: bytes after them
    change nothing in what the call returns. *)
Theorem createKey_ignores_bytes_past_64
  (this : BIP39KeyManagementService) (agentContext : AgentContext)
  (options : BIP39CreateKeyOptions) (p : DeterministicP256Options)
  (pk extra : bytes) (w : World) :
  isP256 (opt_type options) = true ->
  p256Options options = Some p ->
  derivedPublicKeyBytes dp256 (mnemonic p) (origin p) (userHandle p)
    (counterOrDefault p) = Return pk ->
  derivedPublicKeyBytes dp256' (mnemonic p) (origin p) (userHandle p)
    (counterOrDefault p) = Return (pk ++ extra) ->
  64 <= List.length pk ->
  fst (createKey dp256' this agentContext options w) =
  fst (createKey dp256 this agentContext options w).
Proof.
  intros Ht Hp Hpk Hpk' Hlen.
  rewrite !(createKey_p256 _ _ _ _ _ Ht Hp).
  rewrite !(createDeterministicP256Key_run _ _ _ _ _ _ Hp), Hpk, Hpk'.
  cbn [fst]. unfold publicKeyRecord.
  rewrite skipn_app, !firstn_app.
  replace (32 - List.length pk) with 0 by lia.
  replace (32 - List.length (skipn 32 pk)) with 0
    by (rewrite length_skipn; lia).
  replace (32 - List.length pk) with 0 by lia.
  cbn [firstn skipn]. now rewrite !app_nil_r.
Qed.

(** The coordinates lose nothing: two creations that return the same x and
    the same y were given public keys with the same first 64 bytes. *)
Theorem createKey_coordinates_determine_public_key
  (this this' : BIP39KeyManagementService)
  (agentContext agentContext' : AgentContext)
  (options options' : BIP39CreateKeyOptions)
  (p p' : DeterministicP256Options) (pk pk' : bytes)
  (r r' : KmsCreateKeyReturn) (w w' : World) :
  isP256 (opt_type options) = true ->
  isP256 (opt_type options') = true ->
  p256Options options = Some p ->
  p256Options options' = Some p' ->
  derivedPublicKeyBytes dp256 (mnemonic p) (origin p) (userHandle p)
    (counterOrDefault p) = Return pk ->
  derivedPublicKeyBytes dp256' (mnemonic p') (origin p') (userHandle p')
    (counterOrDefault p') = Return pk' ->
  fst (createKey dp256 this agentContext options w) = Return r ->
  fst (createKey dp256' this' agentContext' options' w') = Return r' ->
  jwk_x (publicJwk r) = jwk_x (publicJwk r') ->
  jwk_y (publicJwk r) = jwk_y (publicJwk r') ->
  firstn 64 pk = firstn 64 pk'.
Proof.
  intros Ht Ht' Hp Hp' Hpk Hpk'.
  rewrite (createKey_p256 _ _ _ _ _ Ht Hp), (createKey_p256 _ _ _ _ _ Ht' Hp').
  rewrite (createDeterministicP256Key_run _ _ _ _ _ _ Hp), Hpk.
  rewrite (createDeterministicP256Key_run _ _ _ _ _ _ Hp'), Hpk'.
  cbn [fst]. intros Hr Hr'. injection Hr as <-. injection Hr' as <-.
  cbn [publicKeyRecord publicJwk jwk_x jwk_y]. intros Hx Hy.
  assert (Ex : firstn 32 pk = firstn 32 pk').
  { rewrite <- (CoordinateFacts.base64url_decode_encode (firstn 32 pk)).
    rewrite <- (CoordinateFacts.base64url_decode_encode (firstn 32 pk')).
    f_equal. congruence. }
  assert (Ey : firstn 32 (skipn 32 pk) = firstn 32 (skipn 32 pk')).
  { rewrite <- (CoordinateFacts.base64url_decode_encode
                  (firstn 32 (skipn 32 pk))).
    rewrite <- (CoordinateFacts.base64url_decode_encode
                  (firstn 32 (skipn 32 pk'))).
    f_equal. congruence. }
  rewrite (firstn_64_halves pk), (firstn_64_halves pk').
  now rewrite Ex, Ey.
Qed.

End TwoDerivations.

(** ** Runs of requests *)

Section ClientFacts.

Context `{T : KmsTypes}.
Variable dp256 : DeterministicP256.

(** A request that is not the creation of a P-256 key is put to the wrapped
    service as it is. *)
Lemma perform_forwarded (this : BIP39KeyManagementService)
  (request : KmsCall) (w : World) :
  reachesBackend request = true ->
  perform dp256 this request w =
  (fst (performDirect (wrappedKms this) request (kmsStore w)),
   {| kmsStore := snd (performDirect (wrappedKms this) request (kmsStore w));
      kmsCalls := kmsCalls w ++ [request];
      debugLog := debugLog w |}).
Proof.
  destruct request; cbn [reachesBackend perform performDirect]; intros H;
    try apply negb_true_iff in H;
    unfold createKey, getPublicKey, importKey, deleteKey, randomBytes, sign,
      verify, encrypt, decrypt, invoke;
    try rewrite H;
    match goal with
    | |- context [tagged _ (?m (kmsStore w))] =>
        destruct (m (kmsStore w)) as [[a|e] s]
    end; reflexivity.
Qed.

(** The creation of a P-256 key does not involve the wrapped service, and
    its outcome does not depend on the world it runs in. *)
Lemma perform_p256 (this : BIP39KeyManagementService)
  (request : KmsCall) (w : World) :
  reachesBackend request = false ->
  kmsStore (snd (perform dp256 this request w)) = kmsStore w
  /\ kmsCalls (snd (perform dp256 this request w)) = kmsCalls w
  /\ forall (this' : BIP39KeyManagementService) (w' : World),
       fst (perform dp256 this' request w') = fst (perform dp256 this request w).
Proof.
  destruct request; cbn [reachesBackend]; try discriminate.
  intros H. apply negb_false_iff in H. cbn [perform].
  assert (Hrun : forall this0 w0,
            createKey dp256 this0 agentContext options w0 =
            match p256Options options with
            | None => (Throw missing_p256Options, w0)
            | Some p =>
                createDeterministicP256Key dp256 this0 agentContext options w0
            end).
  { intros. unfold createKey. rewrite H. now destruct (p256Options options). }
  destruct (p256Options options) as [p|] eqn:Hp.
  - assert (Hdet : forall this0 w0,
              createKey dp256 this0 agentContext options w0 =
              match derivedPublicKeyBytes dp256 (mnemonic p) (origin p)
                      (userHandle p) (counterOrDefault p) with
              | Return pk =>
                  (Return (publicKeyRecord (origin p) (userHandle p)
                             (counterOrDefault p) pk),
                   logged agentContext
                     ("Generated deterministic P-256 passkey for origin: "
                        ++ origin p ++ ", user: " ++ userHandle p) w0)
              | Throw e => (Throw (derivationFailure e), w0)
              end).
    { intros. rewrite Hrun.
      apply (createDeterministicP256Key_run _ _ _ _ _ _ Hp). }
    repeat split; intros; rewrite !Hdet;
      destruct (derivedPublicKeyBytes dp256 _ _ _ _); reflexivity.
  - repeat split; intros; rewrite !Hrun; reflexivity.
Qed.

(** The wrapped service sees exactly the requests other than creations of
    P-256 keys, in the order they were made and with the arguments they were
    made with, and its store ends as if those requests had been put to it
    directly. *)
Theorem serve_reaches_backend (this : BIP39KeyManagementService)
  (requests : list KmsCall) (w : World) :
  kmsCalls (snd (serve dp256 this requests w))
  = kmsCalls w ++ filter reachesBackend requests
  /\ kmsStore (snd (serve dp256 this requests w))
     = snd (serveDirect (wrappedKms this) (filter reachesBackend requests)
              (kmsStore w)).
Proof.
  revert w. induction requests as [|request rest IH]; intros w.
  - cbn. now rewrite app_nil_r.
  - cbn [serve filter].
    destruct (reachesBackend request) eqn:Hr.
    + rewrite (perform_forwarded _ _ _ Hr).
      specialize (IH
        {| kmsStore := snd (performDirect (wrappedKms this) request (kmsStore w));
           kmsCalls := kmsCalls w ++ [request];
           debugLog := debugLog w |}).
      destruct (serve dp256 this rest _) as [rs w2].
      cbn [snd kmsStore kmsCalls] in IH |- *.
      destruct IH as [IHc IHs]. cbn [serveDirect].
      destruct (performDirect (wrappedKms this) request (kmsStore w))
        as [r s1].
      cbn [snd] in IHs |- *.
      destruct (serveDirect (wrappedKms this) _ s1) as [rs' s2].
      cbn [snd] in IHs |- *.
      split; [|exact IHs]. now rewrite IHc, <- app_assoc.
    + destruct (perform_p256 this request w Hr) as (Hs & Hc & _).
      destruct (perform dp256 this request w) as [r w1].
      cbn [snd] in Hs, Hc.
      specialize (IH w1).
      destruct (serve dp256 this rest w1) as [rs w2].
      cbn [snd] in IH |- *. now rewrite <- Hs, <- Hc.
Qed.

(** When no request is the creation of a P-256 key, the client gets from
    the service what it would get from the wrapped service. *)
Theorem serve_transparent (this : BIP39KeyManagementService)
  (requests : list KmsCall) (w : World) :
  forallb reachesBackend requests = true ->
  fst (serve dp256 this requests w)
  = fst (serveDirect (wrappedKms this) requests (kmsStore w)).
Proof.
  revert w. induction requests as [|request rest IH]; intros w H.
  - reflexivity.
  - cbn [forallb] in H. apply andb_true_iff in H as [Hr Hrest].
    cbn [serve serveDirect]. rewrite (perform_forwarded _ _ _ Hr).
    specialize (IH
      {| kmsStore := snd (performDirect (wrappedKms this) request (kmsStore w));
         kmsCalls := kmsCalls w ++ [request];
         debugLog := debugLog w |} Hrest).
    destruct (serve dp256 this rest _) as [rs w2].
    cbn [fst kmsStore] in IH |- *.
    destruct (performDirect (wrappedKms this) request (kmsStore w)) as [r s1].
    cbn [fst snd] in IH |- *.
    destruct (serveDirect (wrappedKms this) rest s1) as [rs' s2].
    cbn [fst] in IH |- *. now rewrite IH.
Qed.

(** The outcome of a request depends on the world through the store of the
    wrapped service only. *)
Lemma perform_depends_on_store (this : BIP39KeyManagementService)
  (request : KmsCall) (w w' : World) :
  kmsStore w = kmsStore w' ->
  fst (perform dp256 this request w) = fst (perform dp256 this request w').
Proof.
  intros Hs. destruct (reachesBackend request) eqn:Hr.
  - rewrite !(perform_forwarded _ _ _ Hr). cbn [fst]. now rewrite Hs.
  - destruct (perform_p256 this request w' Hr) as (_ & _ & H). apply H.
Qed.

(** A key created for P-256 is kept nowhere: whatever is asked next (the
    public key of the new keyId, a signature with it, its deletion) is
    answered as if the key had not been created. *)
Theorem createKey_p256_leaves_no_key
  (this : BIP39KeyManagementService) (agentContext : AgentContext)
  (options : BIP39CreateKeyOptions) (next : KmsCall) (w : World) :
  isP256 (opt_type options) = true ->
  fst (perform dp256 this next
         (snd (createKey dp256 this agentContext options w)))
  = fst (perform dp256 this next w).
Proof.
  intros Ht. apply perform_depends_on_store.
  assert (Hr : reachesBackend (CallCreateKey agentContext options) = false).
  { cbn. now rewrite Ht. }
  destruct (perform_p256 this _ w Hr) as (Hs & _ & _).
  cbn [perform] in Hs.
  destruct (createKey dp256 this agentContext options w) as [[r|e] w1];
    exact Hs.
Qed.

End ClientFacts.

(** ** The further properties on concrete requests *)

Section MoreOnFixtures.

Import Fixtures Faults.

Lemma createKey_p256_failure_wrapped_witness :
  createKey invalidMnemonicDp256 bip39Kms mockAgentContext
    (passkeyRequest None) emptyWorld
  = (Throw (CredoError
              "Failed to generate deterministic P-256 passkey: Invalid mnemonic"
              (Some (JsError "Invalid mnemonic"))),
     emptyWorld).
Proof.
  apply (createKey_p256_failure_wrapped invalidMnemonicDp256 bip39Kms
           mockAgentContext (passkeyRequest None)
           {| mnemonic := TEST_MNEMONIC; origin := TEST_ORIGIN;
              userHandle := TEST_USER_HANDLE; counter := None |}
           (JsError "Invalid mnemonic") emptyWorld);
    reflexivity.
Defined.

Lemma createKey_p256_throws_only_CredoError_witness :
  (exists message cause, missing_p256Options = CredoError message cause)
  /\ snd (createKey mockDp256 bip39Kms mockAgentContext (plainRequest P256)
            emptyWorld) = emptyWorld.
Proof.
  apply (createKey_p256_throws_only_CredoError mockDp256); reflexivity.
Defined.

Lemma createKey_p256_logs_once_witness :
  exists p : DeterministicP256Options,
    p256Options (passkeyRequest None) = Some p
    /\ kmsStore (snd (createKey mockDp256 bip39Kms mockAgentContext
                        (passkeyRequest None) emptyWorld))
       = kmsStore emptyWorld
    /\ kmsCalls (snd (createKey mockDp256 bip39Kms mockAgentContext
                        (passkeyRequest None) emptyWorld))
       = kmsCalls emptyWorld
    /\ debugLog (snd (createKey mockDp256 bip39Kms mockAgentContext
                        (passkeyRequest None) emptyWorld))
       = debugLog emptyWorld
         ++ [(mockAgentContext,
              ("Generated deterministic P-256 passkey for origin: "
                 ++ origin p ++ ", user: " ++ userHandle p)%string)].
Proof.
  apply (createKey_p256_logs_once mockDp256 bip39Kms mockAgentContext
           (passkeyRequest None)
           (publicKeyRecord TEST_ORIGIN TEST_USER_HANDLE 0
              (Uint8Array_fill 64 x03)));
    reflexivity.
Defined.

Lemma createKey_counter_default_witness :
  createKey mockDp256 bip39Kms mockAgentContext (passkeyRequest None)
    emptyWorld
  = createKey mockDp256 bip39Kms mockAgentContext (passkeyRequest (Some 0%Z))
      emptyWorld.
Proof.
  apply (createKey_counter_default mockDp256 bip39Kms mockAgentContext
           (passkeyRequest None) (passkeyRequest (Some 0%Z))
           {| mnemonic := TEST_MNEMONIC; origin := TEST_ORIGIN;
              userHandle := TEST_USER_HANDLE; counter := None |}
           {| mnemonic := TEST_MNEMONIC; origin := TEST_ORIGIN;
              userHandle := TEST_USER_HANDLE; counter := Some 0%Z |});
    reflexivity.
Defined.

Lemma keyIdOf_injective_counter_witness : 5%Z = 5%Z.
Proof.
  apply (keyIdOf_injective_counter TEST_ORIGIN TEST_USER_HANDLE 5 5).
  reflexivity.
Defined.

Lemma keyIdOf_injective_plain_witness :
  ("github.com", "developer123", (-1)%Z) = ("github.com", "developer123", (-1)%Z).
Proof.
  apply keyIdOf_injective_plain; reflexivity.
Defined.

Lemma keyIdOf_negative_counter_ambiguity_witness :
  keyIdOf "github.com" "developer123" (- 1)
  = keyIdOf "github.com" "developer123-" 1.
Proof.
  apply (keyIdOf_negative_counter_ambiguity "github.com" "developer123" 1).
  reflexivity.
Defined.

Lemma createKey_short_public_key_witness :
  exists r : KmsCreateKeyReturn,
    fst (createKey shortKeyDp256 bip39Kms mockAgentContext
           (passkeyRequest None) emptyWorld) = Return r
    /\ jwk_x (publicJwk r)
       = Some (Base64.base64url_encode (Uint8Array_fill 32 x03))
    /\ jwk_y (publicJwk r) = Some "".
Proof.
  apply (createKey_short_public_key shortKeyDp256 bip39Kms mockAgentContext
           (passkeyRequest None)
           {| mnemonic := TEST_MNEMONIC; origin := TEST_ORIGIN;
              userHandle := TEST_USER_HANDLE; counter := None |});
    reflexivity.
Defined.

Lemma createKey_coordinates_url_safe_witness :
  exists (r : KmsCreateKeyReturn) (x y : string),
    fst (createKey mockDp256 bip39Kms mockAgentContext (passkeyRequest None)
           emptyWorld) = Return r
    /\ jwk_x (publicJwk r) = Some x /\ jwk_y (publicJwk r) = Some y
    /\ String.length x = 43 /\ String.length y = 43
    /\ includes "+" x = false /\ includes "/" x = false
    /\ includes "=" x = false
    /\ includes "+" y = false /\ includes "/" y = false
    /\ includes "=" y = false.
Proof.
  apply (createKey_coordinates_url_safe mockDp256 bip39Kms mockAgentContext
           (passkeyRequest None)
           {| mnemonic := TEST_MNEMONIC; origin := TEST_ORIGIN;
              userHandle := TEST_USER_HANDLE; counter := None |}
           (Uint8Array_fill 64 x03));
    reflexivity.
Defined.

Lemma createKey_ignores_bytes_past_64_witness :
  fst (createKey longKeyDp256 bip39Kms mockAgentContext (passkeyRequest None)
         emptyWorld)
  = fst (createKey mockDp256 bip39Kms mockAgentContext (passkeyRequest None)
           emptyWorld).
Proof.
  apply (createKey_ignores_bytes_past_64 mockDp256 longKeyDp256 bip39Kms
           mockAgentContext (passkeyRequest None)
           {| mnemonic := TEST_MNEMONIC; origin := TEST_ORIGIN;
              userHandle := TEST_USER_HANDLE; counter := None |}
           (Uint8Array_fill 64 x03) [x04]);
    reflexivity.
Defined.

Lemma createKey_coordinates_determine_public_key_witness :
  firstn 64 (Uint8Array_fill 64 x03)
  = firstn 64 (Uint8Array_fill 64 x03 ++ [x04]).
Proof.
  apply (createKey_coordinates_determine_public_key mockDp256 longKeyDp256
           bip39Kms bip39Kms mockAgentContext mockAgentContext
           (passkeyRequest None) (passkeyRequest (Some 7%Z))
           {| mnemonic := TEST_MNEMONIC; origin := TEST_ORIGIN;
              userHandle := TEST_USER_HANDLE; counter := None |}
           {| mnemonic := TEST_MNEMONIC; origin := TEST_ORIGIN;
              userHandle := TEST_USER_HANDLE; counter := Some 7%Z |}
           (Uint8Array_fill 64 x03) (Uint8Array_fill 64 x03 ++ [x04])
           (publicKeyRecord TEST_ORIGIN TEST_USER_HANDLE 0
              (Uint8Array_fill 64 x03))
           (publicKeyRecord TEST_ORIGIN TEST_USER_HANDLE 7
              (Uint8Array_fill 64 x03))
           emptyWorld emptyWorld);
    reflexivity.
Defined.

(** The last test's request followed by a lookup and a signature. *)
Lemma serve_transparent_witness :
  fst (serve mockDp256 bip39Kms
         [CallCreateKey mockAgentContext (plainRequest Ed25519);
          CallGetPublicKey mockAgentContext "mock-key-id";
          CallSign mockAgentContext [x01]]
         emptyWorld)
  = fst (serveDirect mockWrappedKms
           [CallCreateKey mockAgentContext (plainRequest Ed25519);
            CallGetPublicKey mockAgentContext "mock-key-id";
            CallSign mockAgentContext [x01]]
           tt).
Proof.
  apply (serve_transparent mockDp256 bip39Kms). reflexivity.
Defined.

Lemma createKey_p256_leaves_no_key_witness :
  fst (perform mockDp256 bip39Kms
         (CallGetPublicKey mockAgentContext "p256-https://example.com-user123-0")
         (snd (createKey mockDp256 bip39Kms mockAgentContext
                 (passkeyRequest None) emptyWorld)))
  = fst (perform mockDp256 bip39Kms
           (CallGetPublicKey mockAgentContext
              "p256-https://example.com-user123-0")
           emptyWorld).
Proof.
  apply (createKey_p256_leaves_no_key mockDp256). reflexivity.
Defined.

End MoreOnFixtures.
